(** * o3d3xx-ros: the O3D3xxNode service handlers and publishing loop

    A shallow embedding of [src/o3d3xx_node.cpp].  The node owns a camera
    handle [cam_], a frame grabber [fg_] and one mutex [fg_mutex_].  The
    publishing loop [Run] and the service handlers [Dump], [Config] and [Rm]
    contend for the mutex; every handler finishes by replacing the frame
    grabber.

    The camera ([o3d3xx::Camera]) belongs to libo3d3xx and is taken as an
    interface: each of its member functions is a transition on an abstract
    camera state that either returns or throws.  C++ exceptions are modelled
    by an outcome type threaded through a state monad; the operations on the
    mutex, the camera, the frame grabber and the publishers are recorded, in
    program order, in a log.  The logs of the loop body and of a handler are
    then run as two threads of a machine that interprets the mutex. *)

From Stdlib Require Import ZArith List String Bool Lia DecimalString.
Import ListNotations.

Local Open Scope string_scope.
Local Open Scope list_scope.
Local Open Scope Z_scope.

(** ** Exceptions

    libo3d3xx reports device faults with [o3d3xx::error_t], which carries an
    integer [code()] and derives from [std::exception]; everything else the
    handlers guard against is a [std::exception] with its [what()].  The
    library, boost and the C++ runtime throw nothing that is not derived from
    [std::exception], so these two classes are all a camera call can
    throw. *)

Inductive exn : Type :=
| error_t (code : Z) (what : string)
| std_exception (what : string).

Inductive outcome (A : Type) : Type :=
| Returns (a : A)
| Throws (e : exn).

Arguments Returns {A} a.
Arguments Throws {A} e.

(** ** The camera interface *)

Inductive operating_mode : Type := RUN | EDIT.

(** Every member function but [CancelSession] may throw.  [CancelSession]
    handles a device error itself and reports it through its boolean result;
    [Rm] calls it outside of its try block and discards the result. *)
Class Camera (Cam DeviceConfig : Type) : Type := {
  ToJSON : Cam -> Cam * outcome string;
  FromJSON : string -> Cam -> Cam * outcome unit;
  RequestSession : Cam -> Cam * outcome string;
  SetOperatingMode : operating_mode -> Cam -> Cam * outcome unit;
  GetDeviceConfig : Cam -> Cam * outcome DeviceConfig;
  ActiveApplication : DeviceConfig -> Z;
  DeleteApplication : Z -> Cam -> Cam * outcome unit;
  CancelSession : Cam -> Cam * bool
}.

(** ** Operations recorded in the log *)

Inductive event : Type :=
| EvLock
| EvUnlock
| EvToJSON
| EvFromJSON (json : string)
| EvRequestSession
| EvSetOperatingMode (mode : operating_mode)
| EvGetDeviceConfig
| EvDeleteApplication (index : Z)
| EvCancelSession
| EvNewFrameGrabber
| EvFgReset
| EvSpinnerStart
| EvWaitForFrame (timeout_millis : Z)
| EvWarn (msg : string)
| EvPublish (topic frame_id : string).

Definition is_fg_reset (e : event) : bool :=
  match e with EvFgReset => true | _ => false end.

Definition is_delete (e : event) : bool :=
  match e with EvDeleteApplication _ => true | _ => false end.

Definition is_lock_op (e : event) : bool :=
  match e with EvLock | EvUnlock => true | _ => false end.

(** Calls that reach the camera handle. *)
Definition is_camera_call (e : event) : bool :=
  match e with
  | EvToJSON | EvFromJSON _ | EvRequestSession | EvSetOperatingMode _
  | EvGetDeviceConfig | EvDeleteApplication _ | EvCancelSession => true
  | _ => false
  end.

Definition count (p : event -> bool) (l : list event) : nat :=
  List.length (List.filter p l).

(** ** Node state

    A frame grabber is identified by its generation: the n-th grabber the
    node has constructed. *)

Definition FrameGrabber : Type := nat.

Record O3D3xxNode (Cam : Type) : Type := mkNode {
  timeout_millis_ : Z;
  publish_viz_images_ : bool;
  cam_ : Cam;
  fg_ : FrameGrabber;
  frame_id_ : string
}.

Arguments mkNode {Cam}.
Arguments timeout_millis_ {Cam}.
Arguments publish_viz_images_ {Cam}.
Arguments cam_ {Cam}.
Arguments fg_ {Cam}.
Arguments frame_id_ {Cam}.

Definition set_cam {Cam} (c : Cam) (n : O3D3xxNode Cam) : O3D3xxNode Cam :=
  mkNode (timeout_millis_ n) (publish_viz_images_ n) c (fg_ n) (frame_id_ n).

Definition set_fg {Cam} (g : FrameGrabber) (n : O3D3xxNode Cam) : O3D3xxNode Cam :=
  mkNode (timeout_millis_ n) (publish_viz_images_ n) (cam_ n) g (frame_id_ n).

(** ** Service messages *)

Record GetVersionResponse : Type := { version : string }.

Record DumpResponse : Type := mkDumpResponse {
  dump_status : Z;
  config : string
}.

Record ConfigRequest : Type := { json : string }.

Record StatusMsg : Type := mkStatusMsg {
  status : Z;
  msg : string
}.

Abbreviation ConfigResponse := StatusMsg (only parsing).
Abbreviation RmResponse := StatusMsg (only parsing).

Record RmRequest : Type := { index : Z }.

(** Responses as roscpp default-constructs them before calling a handler. *)
Definition default_DumpResponse : DumpResponse := mkDumpResponse 0 "".
Definition default_StatusMsg : StatusMsg := mkStatusMsg 0 "".

(** ** The handler monad

    A handler runs on the node, its response (a reference parameter in the
    source) and the log.  Effects made before a throw persist. *)

Record env (Cam Res : Type) : Type := mkEnv {
  self : O3D3xxNode Cam;
  res : Res;
  log : list event
}.

Arguments mkEnv {Cam Res}.
Arguments self {Cam Res}.
Arguments res {Cam Res}.
Arguments log {Cam Res}.

Definition M (Cam Res A : Type) : Type := env Cam Res -> env Cam Res * outcome A.

Section Monad.
Context {Cam Res : Type}.

Definition ret {A} (a : A) : M Cam Res A := fun s => (s, Returns a).

Definition bind {A B} (m : M Cam Res A) (k : A -> M Cam Res B) : M Cam Res B :=
  fun s =>
    match m s with
    | (s', Returns a) => k a s'
    | (s', Throws e) => (s', Throws e)
    end.

(** [try { body } catch (const o3d3xx::error_t& ex) { h ex }]: any other
    exception keeps propagating. *)
Definition try_catch_error_t (body : M Cam Res unit)
    (h : Z -> string -> M Cam Res unit) : M Cam Res unit :=
  fun s =>
    match body s with
    | (s', Returns a) => (s', Returns a)
    | (s', Throws (error_t code what)) => h code what s'
    | (s', Throws (std_exception what)) => (s', Throws (std_exception what))
    end.

(** [try { body } catch (const o3d3xx::error_t& ex) { h1 ex }
    catch (const std::exception& std_ex) { h2 std_ex }]. *)
Definition try_catch (body : M Cam Res unit)
    (h1 : Z -> string -> M Cam Res unit)
    (h2 : string -> M Cam Res unit) : M Cam Res unit :=
  fun s =>
    match body s with
    | (s', Returns a) => (s', Returns a)
    | (s', Throws (error_t code what)) => h1 code what s'
    | (s', Throws (std_exception what)) => h2 what s'
    end.

Definition emit (e : event) : M Cam Res unit :=
  fun s => (mkEnv (self s) (res s) (log s ++ [e]), Returns tt).

Definition get_self : M Cam Res (O3D3xxNode Cam) :=
  fun s => (s, Returns (self s)).

Definition modify_res (f : Res -> Res) : M Cam Res unit :=
  fun s => (mkEnv (self s) (f (res s)) (log s), Returns tt).

(** A call of a throwing member function of [cam_]. *)
Definition call_cam {A} (e : event) (op : Cam -> Cam * outcome A) : M Cam Res A :=
  fun s =>
    let (c, r) := op (cam_ (self s)) in
    (mkEnv (set_cam c (self s)) (res s) (log s ++ [e]), r).

(** [std::lock_guard<std::mutex> lock(this->fg_mutex_)] around [body]: the
    mutex is released when the scope is left, by a return or by an
    exception. *)
Definition lock_guard {A} (body : M Cam Res A) : M Cam Res A :=
  fun s =>
    let (s', r) := body (mkEnv (self s) (res s) (log s ++ [EvLock])) in
    (mkEnv (self s') (res s') (log s' ++ [EvUnlock]), r).

(** [this->fg_.reset(new o3d3xx::FrameGrabber(this->cam_))]: the new grabber
    is constructed first, then the slot is switched over to it and the old
    grabber destroyed. *)
Definition fg_reset : M Cam Res unit :=
  fun s =>
    (mkEnv (set_fg (S (fg_ (self s))) (self s)) (res s)
           (log s ++ [EvNewFrameGrabber; EvFgReset]), Returns tt).
End Monad.

Declare Scope handler_scope.
Delimit Scope handler_scope with handler.
Notation "x <- m ;; k" := (bind m (fun x => k))
  (at level 61, m at next level, right associativity) : handler_scope.
Notation "m ;; k" := (bind m (fun _ => k))
  (at level 61, right associativity) : handler_scope.
Local Open Scope handler_scope.

Definition set_status (v : Z) (r : StatusMsg) : StatusMsg := mkStatusMsg v (msg r).
Definition set_msg (m : string) (r : StatusMsg) : StatusMsg := mkStatusMsg (status r) m.
Definition set_dump_status (v : Z) (r : DumpResponse) : DumpResponse :=
  mkDumpResponse v (config r).
Definition set_config (c : string) (r : DumpResponse) : DumpResponse :=
  mkDumpResponse (dump_status r) c.

(** ** The service handlers *)

Section Handlers.
Context {Cam DeviceConfig : Type} `{Camera Cam DeviceConfig}.

(** libo3d3xx's [O3D3XX_LIBRARY_NAME] and what [o3d3xx::version] stores. *)
Variable O3D3XX_LIBRARY_NAME : string.
Variables major minor patch : Z.

(** [operator<<] on an int. *)
Definition show_int (z : Z) : string := NilZero.string_of_int (Z.to_int z).

Definition GetVersion (req : unit) : M Cam GetVersionResponse bool :=
  let ss := (O3D3XX_LIBRARY_NAME ++ ": " ++ show_int major ++ "."
             ++ show_int minor ++ "." ++ show_int patch)%string in
  modify_res (fun _ => {| version := ss |}) ;;
  ret true.

(** The statement guarded by the try block of [Dump]. *)
Definition Dump_try : M Cam DumpResponse unit :=
  cfg <- call_cam EvToJSON ToJSON ;;
  modify_res (set_config cfg).

Definition Dump (req : unit) : M Cam DumpResponse bool :=
  lock_guard (
    modify_res (set_dump_status 0) ;;
    try_catch_error_t
      Dump_try
      (fun code _ => modify_res (set_dump_status code)) ;;
    fg_reset ;;
    ret true).

(** The statement guarded by the try block of [Config]. *)
Definition Config_try (req : ConfigRequest) : M Cam ConfigResponse unit :=
  call_cam (EvFromJSON (json req)) (FromJSON (json req)).

Definition Config (req : ConfigRequest) : M Cam ConfigResponse bool :=
  lock_guard (
    modify_res (set_status 0) ;;
    modify_res (set_msg "OK") ;;
    try_catch
      (Config_try req)
      (fun code what =>
         modify_res (set_status code) ;;
         modify_res (set_msg what))
      (fun what =>
         modify_res (set_status (-1)) ;;
         modify_res (set_msg what)) ;;
    fg_reset ;;
    ret true).

(** [this->cam_->CancelSession()], its result discarded by the caller. *)
Definition cancel_session : M Cam RmResponse bool :=
  fun s =>
    let (c, b) := CancelSession (cam_ (self s)) in
    (mkEnv (set_cam c (self s)) (res s) (log s ++ [EvCancelSession]), Returns b).

(** The statements guarded by the try block of [Rm]. *)
Definition Rm_try (req : RmRequest) : M Cam RmResponse unit :=
  if 0 <? index req then
    call_cam EvRequestSession RequestSession ;;
    call_cam (EvSetOperatingMode EDIT) (SetOperatingMode EDIT) ;;
    dev <- call_cam EvGetDeviceConfig GetDeviceConfig ;;
    if negb (ActiveApplication dev =? index req) then
      call_cam (EvDeleteApplication (index req))
               (DeleteApplication (index req))
    else
      modify_res (set_status (-1)) ;;
      modify_res (set_msg "Cannot delete active application!")
  else ret tt.

Definition Rm (req : RmRequest) : M Cam RmResponse bool :=
  lock_guard (
    modify_res (set_status 0) ;;
    modify_res (set_msg "OK") ;;
    try_catch
      (Rm_try req)
      (fun code what =>
         modify_res (set_status code) ;;
         modify_res (set_msg what))
      (fun what =>
         modify_res (set_status (-1)) ;;
         modify_res (set_msg what)) ;;
    cancel_session ;;
    fg_reset ;;
    ret true).
End Handlers.

(** ** The publishing loop *)

Inductive loop_status : Type :=
| Exited                 (* [ros::ok()] turned false *)
| Spinning               (* still looping when the fuel ran out *)
| Aborted (e : exn).     (* an exception left the loop *)

Section Loop.
Context {Cam : Type}.

(** [ros_ok i]: what [ros::ok()] answers at the i-th test of the loop
    condition.  [WaitForFrame i fg t]: whether the i-th wait, on grabber
    [fg] with timeout [t], brought a frame. *)
Variable ros_ok : nat -> bool.
Variable WaitForFrame : nat -> FrameGrabber -> Z -> bool.

Definition publish (topic : string) : M Cam unit unit :=
  n <- get_self ;;
  emit (EvPublish topic (frame_id_ n)).

(** One pass through the body of the [while] loop. *)
Definition Run_iteration (i : nat) : M Cam unit unit :=
  emit EvLock ;;
  n <- get_self ;;
  emit (EvWaitForFrame (timeout_millis_ n)) ;;
  if negb (WaitForFrame i (fg_ n) (timeout_millis_ n)) then
    emit EvUnlock ;;
    emit (EvWarn "Timeout waiting for camera!")
  else
    emit EvUnlock ;;
    publish "/cloud" ;;
    publish "/depth" ;;
    publish "/amplitude" ;;
    publish "/confidence" ;;
    if publish_viz_images_ n then
      publish "/depth_viz" ;;
      publish "/good_bad_pixels" ;;
      publish "/hist"
    else ret tt.

(** [while (ros::ok()) { ... }], one unit of fuel for each test of the
    condition. *)
Fixpoint Run_loop (fuel i : nat) (s : env Cam unit) : env Cam unit * loop_status :=
  match fuel with
  | O => (s, Spinning)
  | S fuel' =>
      if ros_ok i then
        match Run_iteration i s with
        | (s', Returns _) => Run_loop fuel' (S i) s'
        | (s', Throws e) => (s', Aborted e)
        end
      else (s, Exited)
  end.

Definition Run (fuel : nat) (s : env Cam unit) : env Cam unit * loop_status :=
  Run_loop fuel 0%nat (fst (emit EvSpinnerStart s)).
End Loop.

(** ** A scripted camera

    A concrete camera to run the handlers on.  Each call of a throwing member
    function consumes one entry of [script]: [Some e] makes the call throw
    [e], [None] (or an exhausted script) lets it go through.  [cancel_fails]
    makes [CancelSession] report failure and leave the session open. *)

Module Mock.
Record cam : Type := mkCam {
  session : bool;
  mode : operating_mode;
  active : Z;
  apps : list Z;
  script : list (option exn);
  cancel_fails : bool
}.

Definition with_script (sc : list (option exn)) (c : cam) : cam :=
  mkCam (session c) (mode c) (active c) (apps c) sc (cancel_fails c).

Definition scripted {A} (normal : cam -> cam * A) (c : cam) : cam * outcome A :=
  match script c with
  | Some e :: rest => (with_script rest c, Throws e)
  | None :: rest => let (c', a) := normal (with_script rest c) in (c', Returns a)
  | [] => let (c', a) := normal c in (c', Returns a)
  end.

Definition to_json (c : cam) : cam * string :=
  (c, ("{ActiveApplication: " ++ show_int (active c) ++ "}")%string).

Definition from_json (_ : string) (c : cam) : cam * unit := (c, tt).

Definition request_session (c : cam) : cam * string :=
  (mkCam true (mode c) (active c) (apps c) (script c) (cancel_fails c), "session").

Definition set_operating_mode (m : operating_mode) (c : cam) : cam * unit :=
  (mkCam (session c) m (active c) (apps c) (script c) (cancel_fails c), tt).

Definition get_device_config (c : cam) : cam * Z := (c, active c).

Definition delete_application (i : Z) (c : cam) : cam * unit :=
  (mkCam (session c) (mode c) (active c)
         (List.filter (fun a => negb (a =? i)) (apps c))
         (script c) (cancel_fails c), tt).

Definition cancel (c : cam) : cam * bool :=
  if session c then
    if cancel_fails c then
      (mkCam true (mode c) (active c) (apps c) (script c) false, false)
    else
      (mkCam false RUN (active c) (apps c) (script c) false, true)
  else (c, true).

#[global] Instance camera : Camera cam Z := {|
  ToJSON := scripted to_json;
  FromJSON := fun j => scripted (from_json j);
  RequestSession := scripted request_session;
  SetOperatingMode := fun m => scripted (set_operating_mode m);
  GetDeviceConfig := scripted get_device_config;
  ActiveApplication := fun a => a;
  DeleteApplication := fun i => scripted (delete_application i);
  CancelSession := cancel
|}.

(** A camera in RUN mode holding applications 1, 2 and 3, the first one
    active. *)
Definition idle (sc : list (option exn)) : cam :=
  mkCam false RUN 1 [1; 2; 3] sc false.

Definition node (c : cam) : O3D3xxNode cam :=
  mkNode 500 false c 0%nat "/o3d3xx_link".

Definition start {Res} (r : Res) (c : cam) : env cam Res :=
  mkEnv (node c) r [].
End Mock.

(** ** The two threads and the mutex

    [Run] executes on the main thread; the handlers execute on the thread of
    [ros::AsyncSpinner(1)].  A thread is the sequence of operations its code
    performs (its log when run from an empty log) and a program counter into
    it.  The machine below interleaves two such threads one operation at a
    time and interprets the operations that touch [fg_mutex_] and the slot
    [fg_]. *)

Inductive tid : Type := LoopThread | ServiceThread.

Definition tid_eqb (a b : tid) : bool :=
  match a, b with
  | LoopThread, LoopThread | ServiceThread, ServiceThread => true
  | _, _ => false
  end.

(** Where the handler stands when a frame is taken. *)
Inductive phase : Type := NotStarted | InProgress | Finished.

(** What the loop saw when [WaitForFrame] ran: the grabber in the slot,
    whether a replacement grabber was under construction, and the phase of
    the handler. *)
Record acquisition : Type := mkAcq {
  acq_fg : FrameGrabber;
  acq_constructing : bool;
  acq_phase : phase
}.

Record machine : Type := mkMachine {
  fg_mutex_ : option tid;
  slot : FrameGrabber;
  constructing : bool;
  loop_pc : nat;
  svc_pc : nat;
  acquired : list acquisition
}.

Definition boot (fg : FrameGrabber) : machine :=
  mkMachine None fg false 0 0 [].

Section Interleaving.
(** The operations of the loop thread and of the service thread. *)
Variables loop svc : list event.

Definition phase_of (pc : nat) : phase :=
  if Nat.eqb pc 0 then NotStarted
  else if Nat.leb (List.length svc) pc then Finished
  else InProgress.

Definition prog_of (t : tid) : list event :=
  match t with LoopThread => loop | ServiceThread => svc end.

Definition pc_of (t : tid) (m : machine) : nat :=
  match t with LoopThread => loop_pc m | ServiceThread => svc_pc m end.

(** Thread [t] has performed its current operation, which left the mutex,
    the slot and the acquisitions as given. *)
Definition advance (t : tid) (mu : option tid) (fg : FrameGrabber)
    (c : bool) (acq : list acquisition) (m : machine) : machine :=
  match t with
  | LoopThread => mkMachine mu fg c (S (loop_pc m)) (svc_pc m) acq
  | ServiceThread => mkMachine mu fg c (loop_pc m) (S (svc_pc m)) acq
  end.

(** One operation of thread [t]; [None] when the thread has finished, is
    blocked on the mutex, or would unlock a mutex it does not hold. *)
Definition exec (t : tid) (m : machine) : option machine :=
  match nth_error (prog_of t) (pc_of t m) with
  | None => None
  | Some EvLock =>
      match fg_mutex_ m with
      | None => Some (advance t (Some t) (slot m) (constructing m) (acquired m) m)
      | Some _ => None
      end
  | Some EvUnlock =>
      match fg_mutex_ m with
      | Some t' =>
          if tid_eqb t' t
          then Some (advance t None (slot m) (constructing m) (acquired m) m)
          else None
      | None => None
      end
  | Some EvNewFrameGrabber =>
      Some (advance t (fg_mutex_ m) (slot m) true (acquired m) m)
  | Some EvFgReset =>
      Some (advance t (fg_mutex_ m) (S (slot m)) false (acquired m) m)
  | Some (EvWaitForFrame _) =>
      Some (advance t (fg_mutex_ m) (slot m) (constructing m)
              (acquired m ++ [mkAcq (slot m) (constructing m) (phase_of (svc_pc m))]) m)
  | Some _ =>
      Some (advance t (fg_mutex_ m) (slot m) (constructing m) (acquired m) m)
  end.

(** A schedule names the thread that moves at each step. *)
Fixpoint run_schedule (sched : list tid) (m : machine) : option machine :=
  match sched with
  | [] => Some m
  | t :: sched' =>
      match exec t m with
      | Some m' => run_schedule sched' m'
      | None => None
      end
  end.

(** Whether a thread that has performed [done] holds the mutex. *)
Definition held_step (h : bool) (e : event) : bool :=
  match e with EvLock => true | EvUnlock => false | _ => h end.

Definition holds_mutex (done : list event) : bool :=
  List.fold_left held_step done false.

(** Whether a thread that has performed [done] has constructed a grabber it
    has not yet put into the slot. *)
Definition pending_step (b : bool) (e : event) : bool :=
  match e with EvNewFrameGrabber => true | EvFgReset => false | _ => b end.

Definition half_built (done : list event) : bool :=
  List.fold_left pending_step done false.
End Interleaving.

(** The three administrative operations. *)
Inductive admin_op : Type :=
| OpDump
| OpConfig (req : ConfigRequest)
| OpRm (req : RmRequest).

Section Programs.
Context {Cam DeviceConfig : Type} `{Camera Cam DeviceConfig}.

(** The operations a handler performs when called on node [n]. *)
Definition handler_program (op : admin_op) (n : O3D3xxNode Cam) : list event :=
  match op with
  | OpDump => log (fst (Dump tt (mkEnv n default_DumpResponse [])))
  | OpConfig req => log (fst (Config req (mkEnv n default_StatusMsg [])))
  | OpRm req => log (fst (Rm req (mkEnv n default_StatusMsg [])))
  end.

(** The operations of the i-th pass through the loop body. *)
Definition loop_program (WaitForFrame : nat -> FrameGrabber -> Z -> bool)
    (i : nat) (n : O3D3xxNode Cam) : list event :=
  log (fst (Run_iteration WaitForFrame i (mkEnv n tt []))).
End Programs.

(** ** Predicates on logs and states *)

Definition is_wait (e : event) : bool :=
  match e with EvWaitForFrame _ => true | _ => false end.

Definition writes_slot (e : event) : bool :=
  match e with EvNewFrameGrabber | EvFgReset => true | _ => false end.

(** Operations that touch neither the mutex, nor the slot, nor the camera,
    nor the frame grabber. *)
Definition quiet (e : event) : bool :=
  negb (is_lock_op e || writes_slot e || is_camera_call e || is_wait e).

(** Operations that only the try block of [Rm] performs. *)
Definition is_guarded_call (e : event) : bool :=
  match e with
  | EvRequestSession | EvSetOperatingMode _ | EvGetDeviceConfig
  | EvDeleteApplication _ => true
  | _ => false
  end.

(** The status and message the two catch clauses of [Config] and of [Rm]
    write into the response for an exception. *)
Definition status_of_exn (e : exn) : StatusMsg :=
  match e with
  | error_t code what => mkStatusMsg code what
  | std_exception what => mkStatusMsg (-1) what
  end.

(** The state in which the try block of [Config] and of [Rm] is entered. *)
Definition at_try {Cam} (s : env Cam StatusMsg) : env Cam StatusMsg :=
  mkEnv (self s) (mkStatusMsg 0 "OK") (log s ++ [EvLock]).

Definition at_Dump_try {Cam} (s : env Cam DumpResponse) : env Cam DumpResponse :=
  mkEnv (self s) (set_dump_status 0 (res s)) (log s ++ [EvLock]).

(** What one pass through the loop body logs when the wait times out. *)
Definition timeout_pass (timeout : Z) : list event :=
  [EvLock; EvWaitForFrame timeout; EvUnlock; EvWarn "Timeout waiting for camera!"].

Definition owner_is (t : tid) (mu : option tid) : bool :=
  match mu with Some t' => tid_eqb t' t | None => false end.

(** A pass through the loop body: lock, wait, unlock, then publishing or the
    warning. *)
Definition loop_shaped (p : list event) : Prop :=
  exists t rest,
    p = EvLock :: EvWaitForFrame t :: EvUnlock :: rest /\
    List.forallb quiet rest = true.

(** A handler: a body between taking and releasing the mutex, which does not
    wait for frames and leaves no grabber half installed. *)
Definition handler_shaped (p : list event) : Prop :=
  exists body,
    p = EvLock :: body ++ [EvUnlock] /\
    List.forallb (fun e => negb (is_lock_op e || is_wait e)) body = true /\
    half_built p = false.

(** A frame taken from a settled connection: no replacement grabber was under
    construction, and either the handler had not started and the slot held
    the grabber [fg0] it held at the outset, or the handler had finished and
    the slot held the grabber the handler, run to its end, leaves there. *)
Definition settled (fg0 : FrameGrabber) (svc : list event) (a : acquisition) : Prop :=
  acq_constructing a = false /\
  ((acq_phase a = NotStarted /\ acq_fg a = fg0) \/
   (acq_phase a = Finished /\
    acq_fg a = (fg0 + count is_fg_reset svc)%nat)).

(** What every reachable state of the two threads satisfies. *)
Definition invariant (loop svc : list event) (fg0 : FrameGrabber) (m : machine) : Prop :=
  holds_mutex (firstn (loop_pc m) loop) = owner_is LoopThread (fg_mutex_ m) /\
  holds_mutex (firstn (svc_pc m) svc) = owner_is ServiceThread (fg_mutex_ m) /\
  slot m = (fg0 + count is_fg_reset (firstn (svc_pc m) svc))%nat /\
  constructing m = half_built (firstn (svc_pc m) svc) /\
  List.Forall (settled fg0 svc) (acquired m).

(** ** The constructor

    [nh.param(name, var, default)] stores the value the parameter server
    holds under [name] when there is one of the requested type, and
    [default] otherwise.  The camera class and its default address, port and
    password belong to libo3d3xx. *)

Record ParamServer : Type := {
  param_string : string -> option string;
  param_int : string -> option Z;
  param_bool : string -> option bool
}.

Definition param {A : Type} (found : option A) (default : A) : A :=
  match found with Some v => v | None => default end.

Section Constructor.
Context {Cam : Type}.
Variable new_Camera : string -> Z -> string -> Cam.
Variable DEFAULT_IP : string.
Variable DEFAULT_XMLRPC_PORT : Z.
Variable DEFAULT_PASSWORD : string.

(** [O3D3xxNode::O3D3xxNode()], [node_name] being what
    [ros::this_node::getName()] answers.  The first frame grabber is
    generation 0. *)
Definition O3D3xxNode_new (ps : ParamServer) (node_name : string) : O3D3xxNode Cam :=
  let camera_ip := param (param_string ps "ip") DEFAULT_IP in
  let xmlrpc_port := param (param_int ps "xmlrpc_port") DEFAULT_XMLRPC_PORT in
  let password := param (param_string ps "password") DEFAULT_PASSWORD in
  let timeout_millis := param (param_int ps "timeout_millis") 500 in
  let publish_viz_images := param (param_bool ps "publish_viz_images") false in
  mkNode timeout_millis publish_viz_images
         (new_Camera camera_ip xmlrpc_port password)
         0%nat
         (node_name ++ "_link")%string.

End Constructor.

(** ** Service calls one after the other

    The spinner has one thread: a handler runs to its end before the next
    request is taken up. *)

Section Serving.
Context {Cam DeviceConfig : Type} `{Camera Cam DeviceConfig}.

(** The node a handler leaves behind, whether it returned or threw. *)
Definition handler_node (op : admin_op) (n : O3D3xxNode Cam) : O3D3xxNode Cam :=
  match op with
  | OpDump => self (fst (Dump tt (mkEnv n default_DumpResponse [])))
  | OpConfig req => self (fst (Config req (mkEnv n default_StatusMsg [])))
  | OpRm req => self (fst (Rm req (mkEnv n default_StatusMsg [])))
  end.

(** Whether the handler returned to the caller. *)
Definition handler_returns (op : admin_op) (n : O3D3xxNode Cam) : bool :=
  match op with
  | OpDump =>
      match snd (Dump tt (mkEnv n default_DumpResponse [])) with
      | Returns _ => true | Throws _ => false
      end
  | OpConfig req =>
      match snd (Config req (mkEnv n default_StatusMsg [])) with
      | Returns _ => true | Throws _ => false
      end
  | OpRm req =>
      match snd (Rm req (mkEnv n default_StatusMsg [])) with
      | Returns _ => true | Throws _ => false
      end
  end.

(** A list of requests served in order: the node at the end, the operations
    performed, and how many of the handlers returned. *)
Fixpoint serve_all (ops : list admin_op) (n : O3D3xxNode Cam)
  : O3D3xxNode Cam * list event * nat :=
  match ops with
  | [] => (n, [], 0%nat)
  | op :: ops' =>
      match serve_all ops' (handler_node op n) with
      | (n', l, k) =>
          (n', handler_program op n ++ l,
           ((if handler_returns op n then 1 else 0) + k)%nat)
      end
  end.
End Serving.

(** ** Loop passes and service calls in any order

    Once [Run] has started the spinner, passes through the loop body and
    handlers alternate as the mutex lets them: each takes the mutex for its
    work on [fg_] and [cam_].  A pass leaves the node as it is; a handler
    leaves it as [handler_node] tells. *)

Inductive activity : Type :=
| Pass (i : nat)
| Request (op : admin_op).

Section Life.
Context {Cam DeviceConfig : Type} `{Camera Cam DeviceConfig}.
Variable WaitForFrame : nat -> FrameGrabber -> Z -> bool.

Fixpoint node_life (acts : list activity) (n : O3D3xxNode Cam)
  : O3D3xxNode Cam * list event :=
  match acts with
  | [] => (n, [])
  | Pass i :: acts' =>
      let (n', l) := node_life acts' n in
      (n', loop_program WaitForFrame i n ++ l)
  | Request op :: acts' =>
      let (n', l) := node_life acts' (handler_node op n) in
      (n', handler_program op n ++ l)
  end.
End Life.

(** ** More predicates on logs *)

Definition is_publish (e : event) : bool :=
  match e with EvPublish _ _ => true | _ => false end.

Definition is_warn (e : event) : bool :=
  match e with EvWarn _ => true | _ => false end.

(** What one pass through the loop body logs, by whether the wait brought a
    frame. *)
Definition pass_log (viz : bool) (frame_id : string) (timeout : Z) (got : bool)
  : list event :=
  if got then
    [EvLock; EvWaitForFrame timeout; EvUnlock;
     EvPublish "/cloud" frame_id; EvPublish "/depth" frame_id;
     EvPublish "/amplitude" frame_id; EvPublish "/confidence" frame_id]
    ++ (if viz then
          [EvPublish "/depth_viz" frame_id; EvPublish "/good_bad_pixels" frame_id;
           EvPublish "/hist" frame_id]
        else [])
  else timeout_pass timeout.

(** How many passes the loop makes on [fuel], starting with the i-th test of
    [ros::ok()]. *)
Fixpoint passes (ros_ok : nat -> bool) (fuel i : nat) : nat :=
  match fuel with
  | O => 0%nat
  | S fuel' => if ros_ok i then S (passes ros_ok fuel' (S i)) else 0%nat
  end.

(** How many of the waits [i], ..., [i + k - 1] bring a frame. *)
Definition frames_among (WaitForFrame : nat -> FrameGrabber -> Z -> bool)
    (fg : FrameGrabber) (timeout : Z) (i k : nat) : nat :=
  List.length (List.filter (fun j => WaitForFrame j fg timeout) (List.seq i k)).

(** The mutex discipline of a log, read from a state in which the mutex is
    held or not: the mutex is taken only when free and released only when
    held; waiting for a frame, calling the camera and replacing the frame
    grabber happen with the mutex held; warnings, publishing and starting the
    spinner with the mutex free.  The result is whether the mutex is held at
    the end, [None] when the discipline is broken. *)
Fixpoint disciplined (held : bool) (l : list event) : option bool :=
  match l with
  | [] => Some held
  | e :: l' =>
      match e with
      | EvLock => if held then None else disciplined true l'
      | EvUnlock => if held then disciplined false l' else None
      | EvWarn _ | EvPublish _ _ | EvSpinnerStart =>
          if held then None else disciplined held l'
      | _ => if held then disciplined held l' else None
      end
  end.

(** The calls inside the try block of [Rm], in program order. *)
Definition guarded_sequence (idx : Z) : list event :=
  [EvRequestSession; EvSetOperatingMode EDIT; EvGetDeviceConfig;
   EvDeleteApplication idx].

(** Both program counters are within their programs, and the loop has taken
    as many frames as it has performed waits. *)
Definition within (loop svc : list event) (m : machine) : Prop :=
  (loop_pc m <= List.length loop)%nat /\
  (svc_pc m <= List.length svc)%nat /\
  List.length (acquired m) = count is_wait (firstn (loop_pc m) loop).

Definition finished (loop svc : list event) (m : machine) : Prop :=
  loop_pc m = List.length loop /\ svc_pc m = List.length svc.

(** * Properties *)

Ltac unfold_handler :=
  unfold Dump, Config, Rm, Dump_try, Config_try, Rm_try, GetVersion,
    lock_guard, bind, ret, try_catch, try_catch_error_t, modify_res,
    call_cam, cancel_session, fg_reset, emit, get_self, publish in *;
  simpl in *.

Lemma count_app (p : event -> bool) (l1 l2 : list event) :
  count p (l1 ++ l2) = (count p l1 + count p l2)%nat.
Proof.
  unfold count. rewrite List.filter_app, List.length_app. reflexivity.
Qed.

Ltac norm_log := repeat (rewrite <- List.app_assoc; simpl).

(** Counts the operations a handler appended to the log. *)
Ltac count_log :=
  rewrite count_app;
  match goal with
  | |- context [count ?p (?x :: ?l)] =>
      let v := eval cbv in (count p (x :: l)) in
      change (count p (x :: l)) with v
  end;
  lia.

Section HandlerFacts.
Context {Cam DeviceConfig : Type} `{Camera Cam DeviceConfig}.

(** ** Dump *)

Lemma Dump_returns (s : env Cam DumpResponse) c cfg :
  ToJSON (cam_ (self s)) = (c, Returns cfg) ->
  Dump tt s =
    (mkEnv (set_fg (S (fg_ (self s))) (set_cam c (self s)))
           (mkDumpResponse 0 cfg)
           (log s ++ [EvLock; EvToJSON; EvNewFrameGrabber; EvFgReset; EvUnlock]),
     Returns true).
Proof.
  intros E. unfold_handler. rewrite E. simpl.
  norm_log. reflexivity.
Qed.

Lemma Dump_error_t (s : env Cam DumpResponse) c code what :
  ToJSON (cam_ (self s)) = (c, Throws (error_t code what)) ->
  Dump tt s =
    (mkEnv (set_fg (S (fg_ (self s))) (set_cam c (self s)))
           (mkDumpResponse code (config (res s)))
           (log s ++ [EvLock; EvToJSON; EvNewFrameGrabber; EvFgReset; EvUnlock]),
     Returns true).
Proof.
  intros E. unfold_handler. rewrite E. simpl.
  norm_log. reflexivity.
Qed.

(** An exception that is not an [o3d3xx::error_t] passes the only catch
    clause of [Dump]: the statement that resets [fg_] is skipped. *)
Lemma Dump_std_exception (s : env Cam DumpResponse) c what :
  ToJSON (cam_ (self s)) = (c, Throws (std_exception what)) ->
  Dump tt s =
    (mkEnv (set_cam c (self s))
           (set_dump_status 0 (res s))
           (log s ++ [EvLock; EvToJSON; EvUnlock]),
     Throws (std_exception what)).
Proof.
  intros E. unfold_handler. rewrite E. simpl.
  norm_log. reflexivity.
Qed.

(** ** Config *)

Lemma Config_run (req : ConfigRequest) (s : env Cam ConfigResponse) :
  Config req s =
    (mkEnv (set_fg (S (fg_ (self s)))
              (set_cam (fst (FromJSON (json req) (cam_ (self s)))) (self s)))
           (match snd (FromJSON (json req) (cam_ (self s))) with
            | Returns _ => mkStatusMsg 0 "OK"
            | Throws e => status_of_exn e
            end)
           (log s ++ [EvLock; EvFromJSON (json req); EvNewFrameGrabber;
                      EvFgReset; EvUnlock]),
     Returns true).
Proof.
  unfold_handler.
  destruct (FromJSON (json req) (cam_ (self s))) as [c [u | [code what | what]]];
    simpl; norm_log; reflexivity.
Qed.

(** Whatever [FromJSON] does, [Config] returns after replacing the frame
    grabber exactly once. *)
Lemma Config_rebuilds_once (req : ConfigRequest) (s : env Cam ConfigResponse) :
  snd (Config req s) = Returns true /\
  fg_ (self (fst (Config req s))) = S (fg_ (self s)) /\
  count is_fg_reset (log (fst (Config req s))) = S (count is_fg_reset (log s)).
Proof.
  rewrite Config_run. simpl. repeat split.
  count_log.
Qed.

(** When [ToJSON] returns or throws an [o3d3xx::error_t], [Dump] returns
    after replacing the frame grabber exactly once. *)
Lemma Dump_rebuilds_once (s : env Cam DumpResponse) c r :
  ToJSON (cam_ (self s)) = (c, r) ->
  (forall what, r <> Throws (std_exception what)) ->
  snd (Dump tt s) = Returns true /\
  fg_ (self (fst (Dump tt s))) = S (fg_ (self s)) /\
  count is_fg_reset (log (fst (Dump tt s))) = S (count is_fg_reset (log s)).
Proof.
  intros E N. destruct r as [cfg | [code what | what]].
  - rewrite (Dump_returns _ _ _ E). simpl. repeat split.
    count_log.
  - rewrite (Dump_error_t _ _ _ _ E). simpl. repeat split.
    count_log.
  - exfalso. apply (N what). reflexivity.
Qed.
End HandlerFacts.

Section RmFacts.
Context {Cam DeviceConfig : Type} `{Camera Cam DeviceConfig}.

(** [Rm] is its try block followed, on every path, by [CancelSession] and
    the replacement of the frame grabber. *)
Lemma Rm_unfold (req : RmRequest) (s : env Cam RmResponse) :
  Rm req s =
    (let (s1, r) := Rm_try req (at_try s) in
     let (c, _) := CancelSession (cam_ (self s1)) in
     (mkEnv (set_fg (S (fg_ (self s1))) (set_cam c (self s1)))
            (match r with
             | Returns _ => res s1
             | Throws e => status_of_exn e
             end)
            (log s1 ++ [EvCancelSession; EvNewFrameGrabber; EvFgReset; EvUnlock]),
      Returns true)).
Proof.
  unfold Rm, lock_guard, bind, try_catch, modify_res, ret, cancel_session,
    fg_reset, at_try. simpl.
  destruct (Rm_try req _) as [s1 [u | [code what | what]]]; simpl;
    destruct (CancelSession (cam_ (self s1))) as [c b]; simpl;
    norm_log; reflexivity.
Qed.

(** The try block leaves [fg_] alone and performs only session calls, among
    them at most one deletion. *)
Lemma Rm_try_log (req : RmRequest) (s : env Cam RmResponse) :
  exists pre,
    log (fst (Rm_try req s)) = log s ++ pre /\
    fg_ (self (fst (Rm_try req s))) = fg_ (self s) /\
    List.forallb is_guarded_call pre = true /\
    (count is_delete pre <= 1)%nat.
Proof.
  unfold_handler.
  destruct (0 <? index req); simpl.
  2: { exists []. rewrite List.app_nil_r. repeat split. cbv. lia. }
  destruct (RequestSession (cam_ (self s))) as [c1 [sid | e1]]; simpl.
  2: { exists [EvRequestSession]. repeat split. cbv. lia. }
  destruct (SetOperatingMode EDIT c1) as [c2 [u2 | e2]]; simpl.
  2: { exists [EvRequestSession; EvSetOperatingMode EDIT].
       norm_log. repeat split. cbv. lia. }
  destruct (GetDeviceConfig c2) as [c3 [dev | e3]]; simpl.
  2: { exists [EvRequestSession; EvSetOperatingMode EDIT; EvGetDeviceConfig].
       norm_log. repeat split. cbv. lia. }
  destruct (ActiveApplication dev =? index req); simpl.
  { exists [EvRequestSession; EvSetOperatingMode EDIT; EvGetDeviceConfig].
    norm_log. repeat split. cbv. lia. }
  destruct (DeleteApplication (index req) c3) as [c4 [u4 | e4]]; simpl;
    exists [EvRequestSession; EvSetOperatingMode EDIT; EvGetDeviceConfig;
            EvDeleteApplication (index req)];
    norm_log; repeat split; cbv; lia.
Qed.

(** Whatever the camera does, [Rm] returns after replacing the frame
    grabber exactly once. *)
Lemma Rm_rebuilds_once (req : RmRequest) (s : env Cam RmResponse) :
  snd (Rm req s) = Returns true /\
  fg_ (self (fst (Rm req s))) = S (fg_ (self s)) /\
  count is_fg_reset (log (fst (Rm req s))) = S (count is_fg_reset (log s)).
Proof.
  rewrite Rm_unfold.
  destruct (Rm_try_log req (at_try s)) as (pre & L & G & P & _).
  destruct (Rm_try req (at_try s)) as [s1 r]. simpl in *.
  destruct (CancelSession (cam_ (self s1))) as [c b]. simpl.
  repeat split.
  - rewrite G. reflexivity.
  - rewrite L. rewrite !count_app.
    assert (Z0 : count is_fg_reset pre = 0%nat).
    { clear L. induction pre as [| e pre IH]; [reflexivity |].
      simpl in P. apply andb_prop in P. destruct P as [Pe P].
      unfold count in *. simpl.
      destruct e; simpl in *; try discriminate; auto. }
    rewrite Z0.
    change (count is_fg_reset [EvLock]) with 0%nat.
    change (count is_fg_reset _) with 1%nat at 2.
    lia.
Qed.

(** The handler with a non-positive index: nothing but [CancelSession]
    reaches the camera. *)
Lemma Rm_nonpositive (req : RmRequest) (s : env Cam RmResponse) :
  index req <= 0 ->
  Rm req s =
    (mkEnv (set_fg (S (fg_ (self s)))
              (set_cam (fst (CancelSession (cam_ (self s)))) (self s)))
           (mkStatusMsg 0 "OK")
           (log s ++ [EvLock; EvCancelSession; EvNewFrameGrabber; EvFgReset;
                      EvUnlock]),
     Returns true).
Proof.
  intros Hi. rewrite Rm_unfold. unfold Rm_try, at_try.
  assert (E : (0 <? index req) = false) by (apply Z.ltb_ge; exact Hi).
  rewrite E. unfold ret. simpl.
  destruct (CancelSession (cam_ (self s))) as [c b]. simpl.
  norm_log. reflexivity.
Qed.

(** The handler when the configuration it reads names the requested index
    as the active application. *)
Lemma Rm_active (req : RmRequest) (s : env Cam RmResponse) c1 sid c2 u c3 dev :
  0 < index req ->
  RequestSession (cam_ (self s)) = (c1, Returns sid) ->
  SetOperatingMode EDIT c1 = (c2, Returns u) ->
  GetDeviceConfig c2 = (c3, Returns dev) ->
  ActiveApplication dev = index req ->
  Rm req s =
    (mkEnv (set_fg (S (fg_ (self s)))
              (set_cam (fst (CancelSession c3)) (self s)))
           (mkStatusMsg (-1) "Cannot delete active application!")
           (log s ++ [EvLock; EvRequestSession; EvSetOperatingMode EDIT;
                      EvGetDeviceConfig; EvCancelSession; EvNewFrameGrabber;
                      EvFgReset; EvUnlock]),
     Returns true).
Proof.
  intros Hi E1 E2 E3 Ea. rewrite Rm_unfold. unfold_handler. unfold at_try. simpl.
  apply Z.ltb_lt in Hi. rewrite Hi. simpl.
  rewrite E1. simpl. rewrite E2. simpl. rewrite E3. simpl.
  rewrite Ea, Z.eqb_refl. simpl.
  destruct (CancelSession c3) as [c b]. simpl.
  norm_log. reflexivity.
Qed.

(** The handler when the configuration it reads names another application
    as the active one: the deletion is attempted, and its outcome decides
    the response. *)
Lemma Rm_delete (req : RmRequest) (s : env Cam RmResponse) c1 sid c2 u c3 dev :
  0 < index req ->
  RequestSession (cam_ (self s)) = (c1, Returns sid) ->
  SetOperatingMode EDIT c1 = (c2, Returns u) ->
  GetDeviceConfig c2 = (c3, Returns dev) ->
  ActiveApplication dev <> index req ->
  Rm req s =
    (mkEnv (set_fg (S (fg_ (self s)))
              (set_cam (fst (CancelSession
                               (fst (DeleteApplication (index req) c3))))
                       (self s)))
           (match snd (DeleteApplication (index req) c3) with
            | Returns _ => mkStatusMsg 0 "OK"
            | Throws e => status_of_exn e
            end)
           (log s ++ [EvLock; EvRequestSession; EvSetOperatingMode EDIT;
                      EvGetDeviceConfig; EvDeleteApplication (index req);
                      EvCancelSession; EvNewFrameGrabber; EvFgReset;
                      EvUnlock]),
     Returns true).
Proof.
  intros Hi E1 E2 E3 Ea. rewrite Rm_unfold. unfold_handler. unfold at_try. simpl.
  apply Z.ltb_lt in Hi. rewrite Hi. simpl.
  rewrite E1. simpl. rewrite E2. simpl. rewrite E3. simpl.
  apply Z.eqb_neq in Ea. rewrite Ea. simpl.
  destruct (DeleteApplication (index req) c3) as [c4 [u4 | e4]]; simpl;
    destruct (CancelSession c4) as [c b]; simpl; norm_log; reflexivity.
Qed.
End RmFacts.

(** ** The handlers *)

(** C2 (code at the failing input).  [Dump] on a camera whose [ToJSON] throws
    a [std::exception] other than [o3d3xx::error_t]: the exception leaves the
    handler, the mutex is released, and the frame grabber is the one that was
    there before; no replacement took place.  [Config], whose try block has
    the second catch clause, replaces the grabber on that very failure. *)
Theorem Dump_std_exception_skips_rebuild :
  let boom := std_exception "write_json: stream failure" in
  let s := Mock.start default_DumpResponse (Mock.idle [Some boom]) in
  let t := Mock.start default_StatusMsg (Mock.idle [Some boom]) in
  snd (Dump tt s) = Throws boom /\
  fg_ (self (fst (Dump tt s))) = fg_ (self s) /\
  log (fst (Dump tt s)) = [EvLock; EvToJSON; EvUnlock] /\
  count is_fg_reset (log (fst (Dump tt s))) = 0%nat /\
  snd (Config {| json := "{}" |} t) = Returns true /\
  fg_ (self (fst (Config {| json := "{}" |} t))) = S (fg_ (self t)).
Proof. cbv. repeat split. Qed.

(** C3 (code at the failing input).  The same [std::exception] thrown by the
    first camera call of each handler.  [Config] and [Rm] catch it, answer
    status -1 with its message, return [true] and replace the frame grabber.
    [Dump], whose try block lacks the second catch clause, converts nothing:
    the exception leaves the handler, the status is still the 0 written
    before the try block, and the frame grabber is not replaced. *)
Theorem Dump_std_exception_not_converted :
  let oom := std_exception "bad alloc" in
  let d := Dump tt (Mock.start default_DumpResponse (Mock.idle [Some oom])) in
  let c := Config {| json := "{}" |}
             (Mock.start default_StatusMsg (Mock.idle [Some oom])) in
  let r := Rm {| index := 2 |}
             (Mock.start default_StatusMsg (Mock.idle [Some oom])) in
  (snd c = Returns true /\ res (fst c) = mkStatusMsg (-1) "bad alloc" /\
   fg_ (self (fst c)) = 1%nat) /\
  (snd r = Returns true /\ res (fst r) = mkStatusMsg (-1) "bad alloc" /\
   fg_ (self (fst r)) = 1%nat) /\
  (snd d = Throws oom /\ dump_status (res (fst d)) = 0 /\
   fg_ (self (fst d)) = 0%nat /\
   count is_fg_reset (log (fst d)) = 0%nat).
Proof. cbv. repeat split. Qed.

(** What the catch clauses do convert.  In [Config] and in [Rm] every
    exception thrown inside the
    try block, device error or not, is caught and becomes the status and
    message of the response; in [Dump] a device error thrown inside the try
    block is caught and becomes the status of the response.  In each of these
    cases the handler returns [true] and has replaced the frame grabber
    exactly once. *)
Theorem caught_failures_become_responses :
  forall (Cam DeviceConfig : Type) (H : Camera Cam DeviceConfig),
    (forall (req : ConfigRequest) (s : env Cam ConfigResponse) (e : exn),
        snd (Config_try req (at_try s)) = Throws e ->
        snd (Config req s) = Returns true /\
        res (fst (Config req s)) = status_of_exn e /\
        fg_ (self (fst (Config req s))) = S (fg_ (self s)) /\
        count is_fg_reset (log (fst (Config req s))) = S (count is_fg_reset (log s)))
    /\
    (forall (req : RmRequest) (s : env Cam RmResponse) (e : exn),
        snd (Rm_try req (at_try s)) = Throws e ->
        snd (Rm req s) = Returns true /\
        res (fst (Rm req s)) = status_of_exn e /\
        fg_ (self (fst (Rm req s))) = S (fg_ (self s)) /\
        count is_fg_reset (log (fst (Rm req s))) = S (count is_fg_reset (log s)))
    /\
    (forall (s : env Cam DumpResponse) (code : Z) (what : string),
        snd (Dump_try (at_Dump_try s)) = Throws (error_t code what) ->
        snd (Dump tt s) = Returns true /\
        dump_status (res (fst (Dump tt s))) = code /\
        fg_ (self (fst (Dump tt s))) = S (fg_ (self s)) /\
        count is_fg_reset (log (fst (Dump tt s))) = S (count is_fg_reset (log s))).
Proof.
  intros Cam DeviceConfig H. split; [| split].
  - intros req s e E.
    destruct (Config_rebuilds_once req s) as (R & G & N).
    repeat split; auto.
    rewrite Config_run. simpl.
    unfold Config_try, call_cam, at_try in E. simpl in E.
    destruct (FromJSON (json req) (cam_ (self s))) as [c r]. simpl in *.
    rewrite E. reflexivity.
  - intros req s e E.
    destruct (Rm_rebuilds_once req s) as (R & G & N).
    repeat split; auto.
    rewrite Rm_unfold.
    destruct (Rm_try req (at_try s)) as [s1 r]. simpl in E. subst r.
    destruct (CancelSession (cam_ (self s1))) as [c b]. reflexivity.
  - intros s code what E.
    unfold Dump_try, bind, call_cam, at_Dump_try in E. simpl in E.
    destruct (ToJSON (cam_ (self s))) as [c r] eqn:T.
    destruct r as [cfg | e]; simpl in E; [discriminate |].
    injection E as ->.
    rewrite (Dump_error_t _ _ _ _ T). simpl. repeat split.
    count_log.
Qed.

(** For instance: a malformed document given to [Config], a busy device met
    by [Rm] and a device error met by [Dump]. *)
Lemma caught_failures_become_responses_witness :
  (res (fst (Config {| json := "{" |}
               (Mock.start default_StatusMsg
                  (Mock.idle [Some (std_exception "parse error")]))))
   = mkStatusMsg (-1) "parse error") /\
  (res (fst (Rm {| index := 2 |}
               (Mock.start default_StatusMsg
                  (Mock.idle [Some (error_t 5 "session busy")]))))
   = mkStatusMsg 5 "session busy") /\
  (dump_status (res (fst (Dump tt
               (Mock.start default_DumpResponse
                  (Mock.idle [Some (error_t 7 "timeout")])))))
   = 7).
Proof.
  split; [| split].
  - apply (proj1 (caught_failures_become_responses _ _ Mock.camera)
             {| json := "{" |} _ (std_exception "parse error")).
    reflexivity.
  - apply (proj1 (proj2 (caught_failures_become_responses _ _ Mock.camera))
             {| index := 2 |} _ (error_t 5 "session busy")).
    reflexivity.
  - apply (proj2 (proj2 (caught_failures_become_responses _ _ Mock.camera))
             _ 7 "timeout").
    reflexivity.
Defined.

(** C6.  [Config] always returns [true], and its response follows the
    outcome of [FromJSON]: status 0 and "OK" when the document is applied,
    the code and message of the device error when the camera reports one
    (the code is kept, whatever it is), and status -1 with the exception's
    message on any other failure. *)
Theorem Config_response :
  forall (Cam DeviceConfig : Type) (H : Camera Cam DeviceConfig)
         (req : ConfigRequest) (s : env Cam ConfigResponse),
    snd (Config req s) = Returns true /\
    (forall c u,
        FromJSON (json req) (cam_ (self s)) = (c, Returns u) ->
        res (fst (Config req s)) = mkStatusMsg 0 "OK") /\
    (forall c code what,
        FromJSON (json req) (cam_ (self s)) = (c, Throws (error_t code what)) ->
        res (fst (Config req s)) = mkStatusMsg code what) /\
    (forall c what,
        FromJSON (json req) (cam_ (self s)) = (c, Throws (std_exception what)) ->
        res (fst (Config req s)) = mkStatusMsg (-1) what).
Proof.
  intros Cam DeviceConfig H req s. rewrite Config_run. simpl.
  split; [reflexivity |].
  split; [| split]; intros; match goal with E : _ = _ |- _ => rewrite E end;
    reflexivity.
Qed.

(** C6 (witness): a document that applies, one the device rejects with a
    code of its own, and one that does not parse. *)
Lemma Config_response_witness :
  let run sc := res (fst (Config {| json := "{}" |}
                  (Mock.start default_StatusMsg (Mock.idle sc)))) in
  run [] = mkStatusMsg 0 "OK" /\
  run [Some (error_t 100001 "invalid parameter")] = mkStatusMsg 100001 "invalid parameter" /\
  run [Some (std_exception "parse error")] = mkStatusMsg (-1) "parse error".
Proof.
  cbv zeta. split; [| split].
  - eapply (proj1 (proj2 (Config_response _ _ Mock.camera _ _))). reflexivity.
  - eapply (proj1 (proj2 (proj2 (Config_response _ _ Mock.camera _ _)))).
    reflexivity.
  - eapply (proj2 (proj2 (proj2 (Config_response _ _ Mock.camera _ _)))).
    reflexivity.
Defined.

(** C10.  When [ToJSON] throws a device error, [Dump] returns [true] with the
    error's code as status and with the config field as it was handed in:
    empty for the default-constructed response of a service call. *)
Theorem Dump_device_error_keeps_config_empty :
  forall (Cam DeviceConfig : Type) (H : Camera Cam DeviceConfig)
         (s : env Cam DumpResponse) (c : Cam) (code : Z) (what : string),
    ToJSON (cam_ (self s)) = (c, Throws (error_t code what)) ->
    snd (Dump tt s) = Returns true /\
    dump_status (res (fst (Dump tt s))) = code /\
    config (res (fst (Dump tt s))) = config (res s) /\
    (res s = default_DumpResponse ->
     res (fst (Dump tt s)) = mkDumpResponse code "").
Proof.
  intros Cam DeviceConfig H s c code what E.
  rewrite (Dump_error_t _ _ _ _ E). simpl.
  repeat split. intros D. rewrite D. reflexivity.
Qed.

(** C10 (witness). *)
Lemma Dump_device_error_keeps_config_empty_witness :
  res (fst (Dump tt (Mock.start default_DumpResponse
                       (Mock.idle [Some (error_t 7 "timeout")]))))
  = mkDumpResponse 7 "".
Proof.
  eapply (Dump_device_error_keeps_config_empty _ _ Mock.camera).
  - reflexivity.
  - reflexivity.
Defined.

(** C9.  [GetVersion] returns [true] with the library name and version
    written as "name: major.minor.patch".  It performs no operation on the
    mutex, the camera or the frame grabber (the log is as before), leaves
    every field of the node as it was, and its response does not depend on
    the node. *)
Theorem GetVersion_reads_and_writes_no_node_state :
  forall (Cam : Type) (name : string) (major minor patch : Z)
         (s s' : env Cam GetVersionResponse),
    snd (GetVersion name major minor patch tt s) = Returns true /\
    version (res (fst (GetVersion name major minor patch tt s))) =
      (name ++ ": " ++ show_int major ++ "." ++ show_int minor ++ "."
            ++ show_int patch)%string /\
    self (fst (GetVersion name major minor patch tt s)) = self s /\
    log (fst (GetVersion name major minor patch tt s)) = log s /\
    count is_lock_op (log (fst (GetVersion name major minor patch tt s))) =
      count is_lock_op (log s) /\
    res (fst (GetVersion name major minor patch tt s)) =
      res (fst (GetVersion name major minor patch tt s')).
Proof.
  intros. unfold_handler. repeat split.
Qed.

(** C4 (counterexample).  The requested index is the active one, yet the
    response is not the refusal: with a device that rejects the session
    request the response carries the device's code; with index 0 on a device
    that reports 0 as active the guard on the index skips the whole block. *)
Lemma Rm_active_index_not_refused :
  (let s := Mock.start default_StatusMsg (Mock.idle [Some (error_t 5 "session busy")]) in
   Mock.active (cam_ (self s)) = 1 /\
   res (fst (Rm {| index := 1 |} s)) = mkStatusMsg 5 "session busy") /\
  (let s := Mock.start default_StatusMsg (Mock.mkCam false RUN 0 [] [] false) in
   Mock.active (cam_ (self s)) = 0 /\
   res (fst (Rm {| index := 0 |} s)) = mkStatusMsg 0 "OK").
Proof. cbv. repeat split. Qed.

(** C4 (amended).  For a positive index, when the session request, the switch
    to EDIT and the configuration read go through and the configuration names
    the requested index as active: the response is status -1 with message
    "Cannot delete active application!", [DeleteApplication] is not called,
    and [CancelSession] runs before the handler replaces the grabber and
    returns. *)
Theorem Rm_refuses_active_application :
  forall (Cam DeviceConfig : Type) (H : Camera Cam DeviceConfig)
         (req : RmRequest) (s : env Cam RmResponse)
         (c1 c2 c3 : Cam) (sid : string) (u : unit) (dev : DeviceConfig),
    0 < index req ->
    RequestSession (cam_ (self s)) = (c1, Returns sid) ->
    SetOperatingMode EDIT c1 = (c2, Returns u) ->
    GetDeviceConfig c2 = (c3, Returns dev) ->
    ActiveApplication dev = index req ->
    snd (Rm req s) = Returns true /\
    res (fst (Rm req s)) = mkStatusMsg (-1) "Cannot delete active application!" /\
    log (fst (Rm req s)) =
      log s ++ [EvLock; EvRequestSession; EvSetOperatingMode EDIT;
                EvGetDeviceConfig; EvCancelSession; EvNewFrameGrabber;
                EvFgReset; EvUnlock] /\
    count is_delete (log (fst (Rm req s))) = count is_delete (log s).
Proof.
  intros Cam DeviceConfig H req s c1 c2 c3 sid u dev Hi E1 E2 E3 Ea.
  rewrite (Rm_active req s c1 sid c2 u c3 dev Hi E1 E2 E3 Ea). simpl.
  repeat split. count_log.
Qed.

(** C4 (witness): application 1 is the active one. *)
Lemma Rm_refuses_active_application_witness :
  res (fst (Rm {| index := 1 |} (Mock.start default_StatusMsg (Mock.idle []))))
  = mkStatusMsg (-1) "Cannot delete active application!".
Proof.
  eapply (Rm_refuses_active_application _ _ Mock.camera {| index := 1 |}
            (Mock.start default_StatusMsg (Mock.idle []))).
  - reflexivity.
  - reflexivity.
  - reflexivity.
  - reflexivity.
  - reflexivity.
Defined.

(** C5 (counterexample).  A first call of [Rm] deletes application 2 on a
    camera whose [CancelSession] then fails, so the handle keeps its session
    and the device stays in EDIT mode.  A second call with index 0 performs
    [CancelSession], which now goes through: the session is closed and the
    device back in RUN mode.  The call with index 0 has changed the device. *)
Lemma Rm_index_zero_changes_device :
  let c0 := Mock.mkCam false RUN 1 [1; 2; 3] [] true in
  let s1 := fst (Rm {| index := 2 |} (Mock.start default_StatusMsg c0)) in
  let s2 := fst (Rm {| index := 0 |} (mkEnv (self s1) default_StatusMsg [])) in
  Mock.session (cam_ (self s1)) = true /\
  Mock.mode (cam_ (self s1)) = EDIT /\
  res s2 = mkStatusMsg 0 "OK" /\
  log s2 = [EvLock; EvCancelSession; EvNewFrameGrabber; EvFgReset; EvUnlock] /\
  Mock.session (cam_ (self s2)) = false /\
  Mock.mode (cam_ (self s2)) = RUN /\
  cam_ (self s2) <> cam_ (self s1).
Proof. cbv. repeat split. discriminate. Qed.

(** C5 (amended).  For an index that is not positive the handler returns
    [true] with status 0 and message "OK"; it requests no session, changes no
    operating mode, reads no configuration and deletes nothing.  Its only
    call on the camera is [CancelSession], after which it replaces the frame
    grabber: the camera is left as [CancelSession] leaves it, hence untouched
    wherever [CancelSession] changes nothing. *)
Theorem Rm_nonpositive_index_only_cancels :
  forall (Cam DeviceConfig : Type) (H : Camera Cam DeviceConfig)
         (req : RmRequest) (s : env Cam RmResponse),
    index req <= 0 ->
    snd (Rm req s) = Returns true /\
    res (fst (Rm req s)) = mkStatusMsg 0 "OK" /\
    log (fst (Rm req s)) =
      log s ++ [EvLock; EvCancelSession; EvNewFrameGrabber; EvFgReset; EvUnlock] /\
    count is_guarded_call (log (fst (Rm req s))) = count is_guarded_call (log s) /\
    cam_ (self (fst (Rm req s))) = fst (CancelSession (cam_ (self s))) /\
    (fst (CancelSession (cam_ (self s))) = cam_ (self s) ->
     cam_ (self (fst (Rm req s))) = cam_ (self s)).
Proof.
  intros Cam DeviceConfig H req s Hi.
  rewrite (Rm_nonpositive req s Hi). simpl.
  repeat split; auto. count_log.
Qed.

(** C5 (witness): index -3 on an idle camera. *)
Lemma Rm_nonpositive_index_only_cancels_witness :
  let s := Mock.start default_StatusMsg (Mock.idle []) in
  res (fst (Rm {| index := -3 |} s)) = mkStatusMsg 0 "OK" /\
  cam_ (self (fst (Rm {| index := -3 |} s))) = cam_ (self s).
Proof.
  cbv zeta.
  pose proof (Rm_nonpositive_index_only_cancels _ _ Mock.camera
                {| index := -3 |}
                (Mock.start default_StatusMsg (Mock.idle []))) as W.
  assert (Hi : index {| index := -3 |} <= 0) by (simpl; lia).
  destruct (W Hi) as (_ & R & _ & _ & _ & U).
  split; [exact R | apply U; reflexivity].
Defined.

(** C7 (counterexample).  Index 2 is positive and application 1 is the active
    one, but the device rejects the session request: [DeleteApplication] is
    never called. *)
Lemma Rm_other_index_without_delete :
  let s := Mock.start default_StatusMsg (Mock.idle [Some (error_t 5 "session busy")]) in
  0 < 2 /\ Mock.active (cam_ (self s)) <> 2 /\
  log (fst (Rm {| index := 2 |} s)) =
    [EvLock; EvRequestSession; EvCancelSession; EvNewFrameGrabber; EvFgReset;
     EvUnlock] /\
  count is_delete (log (fst (Rm {| index := 2 |} s))) = 0%nat.
Proof. cbv. repeat split; discriminate. Qed.

(** C7 (amended).  On every call of [Rm] the handler takes the mutex,
    performs session calls with at most one [DeleteApplication] among them,
    then [CancelSession], then the replacement of the frame grabber, then
    releases the mutex: the cancel always precedes the rebuild.  For a
    positive index, when the session request, the switch to EDIT and the
    configuration read go through and the configuration names another
    application as active, [DeleteApplication] is called exactly once, on the
    requested index and before the cancel, whether or not it succeeds. *)
Theorem Rm_deletes_then_cancels_then_rebuilds :
  forall (Cam DeviceConfig : Type) (H : Camera Cam DeviceConfig)
         (req : RmRequest) (s : env Cam RmResponse),
    (exists pre,
        log (fst (Rm req s)) =
          log s ++ EvLock :: pre ++
            [EvCancelSession; EvNewFrameGrabber; EvFgReset; EvUnlock] /\
        List.forallb is_guarded_call pre = true /\
        (count is_delete pre <= 1)%nat) /\
    (forall (c1 c2 c3 : Cam) (sid : string) (u : unit) (dev : DeviceConfig),
        0 < index req ->
        RequestSession (cam_ (self s)) = (c1, Returns sid) ->
        SetOperatingMode EDIT c1 = (c2, Returns u) ->
        GetDeviceConfig c2 = (c3, Returns dev) ->
        ActiveApplication dev <> index req ->
        log (fst (Rm req s)) =
          log s ++ [EvLock; EvRequestSession; EvSetOperatingMode EDIT;
                    EvGetDeviceConfig; EvDeleteApplication (index req);
                    EvCancelSession; EvNewFrameGrabber; EvFgReset; EvUnlock] /\
        count is_delete (log (fst (Rm req s))) = S (count is_delete (log s))).
Proof.
  intros Cam DeviceConfig H req s. split.
  - rewrite Rm_unfold.
    destruct (Rm_try_log req (at_try s)) as (pre & L & _ & P & D).
    destruct (Rm_try req (at_try s)) as [s1 r]. simpl in L.
    destruct (CancelSession (cam_ (self s1))) as [c b]. simpl.
    exists pre. rewrite L. norm_log. auto.
  - intros c1 c2 c3 sid u dev Hi E1 E2 E3 Ea.
    rewrite (Rm_delete req s c1 sid c2 u c3 dev Hi E1 E2 E3 Ea). simpl.
    split; [reflexivity | count_log].
Qed.

(** C7 (witness): deleting application 2 while application 1 is active. *)
Lemma Rm_deletes_then_cancels_then_rebuilds_witness :
  log (fst (Rm {| index := 2 |} (Mock.start default_StatusMsg (Mock.idle [])))) =
    [EvLock; EvRequestSession; EvSetOperatingMode EDIT; EvGetDeviceConfig;
     EvDeleteApplication 2; EvCancelSession; EvNewFrameGrabber; EvFgReset;
     EvUnlock].
Proof.
  eapply (proj2 (Rm_deletes_then_cancels_then_rebuilds _ _ Mock.camera
                   {| index := 2 |}
                   (Mock.start default_StatusMsg (Mock.idle [])))).
  - reflexivity.
  - reflexivity.
  - reflexivity.
  - reflexivity.
  - simpl. lia.
Defined.

(** ** The publishing loop never gives up *)

Section LoopFacts.
Context {Cam : Type}.
Variable ros_ok : nat -> bool.
Variable WaitForFrame : nat -> FrameGrabber -> Z -> bool.

Lemma Run_iteration_timeout (i : nat) (s : env Cam unit) :
  WaitForFrame i (fg_ (self s)) (timeout_millis_ (self s)) = false ->
  Run_iteration WaitForFrame i s =
    (mkEnv (self s) (res s) (log s ++ timeout_pass (timeout_millis_ (self s))),
     Returns tt).
Proof.
  intros E. unfold Run_iteration, publish. unfold_handler. rewrite E. simpl.
  norm_log. reflexivity.
Qed.

(** A pass through the loop body takes the mutex, waits and releases the
    mutex before anything else; it never throws, never changes the node and
    never writes the slot. *)
Lemma Run_iteration_shape (i : nat) (s : env Cam unit) :
  exists rest,
    Run_iteration WaitForFrame i s =
      (mkEnv (self s) (res s)
             (log s ++ EvLock :: EvWaitForFrame (timeout_millis_ (self s))
                    :: EvUnlock :: rest),
       Returns tt) /\
    List.forallb quiet rest = true.
Proof.
  unfold Run_iteration, publish. unfold_handler.
  destruct (WaitForFrame i (fg_ (self s)) (timeout_millis_ (self s))); simpl.
  - destruct (publish_viz_images_ (self s)); simpl; eexists;
      (split; [norm_log; reflexivity | reflexivity]).
  - eexists. split; [norm_log; reflexivity | reflexivity].
Qed.

Lemma Run_loop_keeps_node (fuel i : nat) (s : env Cam unit) :
  self (fst (Run_loop ros_ok WaitForFrame fuel i s)) = self s /\
  count writes_slot (log (fst (Run_loop ros_ok WaitForFrame fuel i s))) =
    count writes_slot (log s).
Proof.
  revert i s. induction fuel as [| fuel IH]; intros i s; simpl.
  - split; reflexivity.
  - destruct (ros_ok i); [| split; reflexivity].
    destruct (Run_iteration_shape i s) as (rest & E & F). rewrite E.
    destruct (IH (S i) (mkEnv (self s) (res s)
              (log s ++ EvLock :: EvWaitForFrame (timeout_millis_ (self s))
                     :: EvUnlock :: rest))) as (IH1 & IH2).
    rewrite IH1, IH2. simpl. split; [reflexivity |].
    rewrite count_app.
    assert (Z0 : count writes_slot rest = 0%nat).
    { clear E IH IH1 IH2. induction rest as [| e rest IHr]; [reflexivity |].
      simpl in F. apply andb_prop in F. destruct F as [Fe F].
      unfold count in *. simpl.
      destruct e; simpl in *; try discriminate; auto. }
    unfold count in *. simpl. rewrite Z0. lia.
Qed.

Lemma Run_loop_all_timeouts (fuel i : nat) (s : env Cam unit) :
  (forall j, ros_ok j = true) ->
  (forall j g t, WaitForFrame j g t = false) ->
  Run_loop ros_ok WaitForFrame fuel i s =
    (mkEnv (self s) (res s)
           (log s ++ List.concat
                       (List.repeat (timeout_pass (timeout_millis_ (self s))) fuel)),
     Spinning).
Proof.
  intros Hok Hw. revert i s. induction fuel as [| fuel IH]; intros i s; simpl.
  - rewrite List.app_nil_r. destruct s; reflexivity.
  - rewrite Hok, (Run_iteration_timeout i s (Hw _ _ _)), IH. simpl.
    norm_log. reflexivity.
Qed.
End LoopFacts.

(** C8.  A pass through the loop body in which [WaitForFrame] times out
    takes the mutex, waits, releases the mutex and logs the warning, nothing
    more, and hands over to the next test of the loop condition.  With
    [ros::ok()] holding and every wait timing out the loop is still running
    after any number of passes, each having logged its warning with nothing
    in between.  Whatever the waits bring, the loop leaves the node, its
    frame grabber included, as it was and never writes the slot. *)
Theorem Run_timeout_keeps_looping :
  forall (Cam : Type) (ros_ok : nat -> bool)
         (WaitForFrame : nat -> FrameGrabber -> Z -> bool),
    (forall (fuel i : nat) (s : env Cam unit),
        ros_ok i = true ->
        WaitForFrame i (fg_ (self s)) (timeout_millis_ (self s)) = false ->
        Run_iteration WaitForFrame i s =
          (mkEnv (self s) (res s)
                 (log s ++ [EvLock; EvWaitForFrame (timeout_millis_ (self s));
                            EvUnlock; EvWarn "Timeout waiting for camera!"]),
           Returns tt) /\
        Run_loop ros_ok WaitForFrame (S fuel) i s =
          Run_loop ros_ok WaitForFrame fuel (S i)
            (fst (Run_iteration WaitForFrame i s))) /\
    ((forall j, ros_ok j = true) ->
     (forall j g t, WaitForFrame j g t = false) ->
     forall (fuel : nat) (s : env Cam unit),
       snd (Run ros_ok WaitForFrame fuel s) = Spinning /\
       log (fst (Run ros_ok WaitForFrame fuel s)) =
         log s ++ EvSpinnerStart ::
           List.concat (List.repeat (timeout_pass (timeout_millis_ (self s))) fuel)) /\
    (forall (fuel : nat) (s : env Cam unit),
        self (fst (Run ros_ok WaitForFrame fuel s)) = self s /\
        fg_ (self (fst (Run ros_ok WaitForFrame fuel s))) = fg_ (self s) /\
        count writes_slot (log (fst (Run ros_ok WaitForFrame fuel s))) =
          count writes_slot (log s)).
Proof.
  intros Cam ros_ok WaitForFrame. split; [| split].
  - intros fuel i s Hok Hw. split.
    + apply (Run_iteration_timeout WaitForFrame i s Hw).
    + simpl. rewrite Hok.
      rewrite (Run_iteration_timeout WaitForFrame i s Hw). reflexivity.
  - intros Hok Hw fuel s. unfold Run.
    rewrite (Run_loop_all_timeouts ros_ok WaitForFrame fuel 0 _ Hok Hw).
    simpl. split; [reflexivity |]. norm_log. reflexivity.
  - intros fuel s. unfold Run.
    destruct (Run_loop_keeps_node ros_ok WaitForFrame fuel 0
                (fst (emit EvSpinnerStart s))) as (N & W).
    rewrite N, W. simpl. repeat split.
    rewrite count_app. unfold count. simpl. lia.
Qed.

(** C8 (witness): a hundred passes against a camera that never delivers. *)
Lemma Run_timeout_keeps_looping_witness :
  snd (Run (fun _ => true) (fun _ _ _ => false) 100
         (Mock.start tt (Mock.idle []))) = Spinning.
Proof.
  apply (proj1 (proj2 (Run_timeout_keeps_looping Mock.cam (fun _ => true)
                         (fun _ _ _ => false)))).
  - intros j. reflexivity.
  - intros j g t. reflexivity.
Defined.

(** ** The mutex discipline *)

Section InterleavingFacts.
Variables loop svc : list event.
Variable fg0 : FrameGrabber.

Lemma firstn_S_nth (l : list event) (n : nat) (e : event) :
  nth_error l n = Some e -> firstn (S n) l = firstn n l ++ [e].
Proof.
  revert n. induction l as [| x l IH]; intros [| n] E; simpl in *;
    try discriminate.
  - injection E as ->. reflexivity.
  - rewrite (IH n E). reflexivity.
Qed.

Lemma holds_mutex_snoc (l : list event) (e : event) :
  holds_mutex (l ++ [e]) = held_step (holds_mutex l) e.
Proof. unfold holds_mutex. rewrite List.fold_left_app. reflexivity. Qed.

Lemma half_built_snoc (l : list event) (e : event) :
  half_built (l ++ [e]) = pending_step (half_built l) e.
Proof. unfold half_built. rewrite List.fold_left_app. reflexivity. Qed.

Lemma count_snoc (p : event -> bool) (l : list event) (e : event) :
  count p (l ++ [e]) = (count p l + if p e then 1 else 0)%nat.
Proof.
  rewrite count_app. unfold count. simpl. destruct (p e); reflexivity.
Qed.

Lemma forallb_nth (p : event -> bool) (l : list event) (n : nat) (e : event) :
  List.forallb p l = true -> nth_error l n = Some e -> p e = true.
Proof.
  intros F N. rewrite List.forallb_forall in F.
  apply F. eapply List.nth_error_In. exact N.
Qed.

Lemma In_firstn (l : list event) (n : nat) (e : event) :
  List.In e (firstn n l) -> List.In e l.
Proof.
  revert n. induction l as [| x l IH]; intros [| n] I; simpl in *; auto.
  - contradiction.
  - destruct I as [-> | I]; [left; reflexivity | right; eauto].
Qed.

(** Operations that are no lock operations keep the mutex where it is. *)
Lemma fold_held_quiet (l : list event) (h : bool) :
  List.forallb (fun e => negb (is_lock_op e)) l = true ->
  List.fold_left held_step l h = h.
Proof.
  revert h. induction l as [| e l IH]; intros h F; simpl in *; [reflexivity |].
  apply andb_prop in F. destruct F as [Fe F].
  rewrite (IH _ F). destruct e; simpl in *; try discriminate; reflexivity.
Qed.

Hypothesis loop_ok : loop_shaped loop.
Hypothesis svc_ok : handler_shaped svc.

Lemma loop_wait_holds (pc : nat) (t : Z) :
  nth_error loop pc = Some (EvWaitForFrame t) ->
  holds_mutex (firstn pc loop) = true.
Proof.
  destruct loop_ok as (t0 & rest & -> & Q). intros N.
  destruct pc as [| [| [| pc]]]; simpl in N; try discriminate.
  - reflexivity.
  - apply (forallb_nth _ _ _ _ Q) in N. discriminate.
Qed.

Lemma loop_writes_no_slot (pc : nat) (e : event) :
  nth_error loop pc = Some e -> writes_slot e = false.
Proof.
  destruct loop_ok as (t0 & rest & -> & Q). intros N.
  destruct pc as [| [| [| pc]]]; simpl in N.
  1-3: injection N as <-; reflexivity.
  apply (forallb_nth _ _ _ _ Q) in N.
  destruct e; simpl in *; try discriminate; reflexivity.
Qed.

Lemma svc_waits_not (pc : nat) (e : event) :
  nth_error svc pc = Some e -> is_wait e = false.
Proof.
  destruct svc_ok as (body & -> & Q & _). intros N.
  destruct pc as [| pc]; simpl in N.
  - injection N as <-. reflexivity.
  - destruct (Nat.lt_ge_cases pc (List.length body)) as [L | L].
    + rewrite List.nth_error_app1 in N by exact L.
      apply (forallb_nth _ _ _ _ Q) in N.
      destruct e; simpl in *; try discriminate; reflexivity.
    + rewrite List.nth_error_app2 in N by exact L.
      destruct (pc - List.length body)%nat as [| [| k]]; simpl in N;
        try discriminate.
      injection N as <-. reflexivity.
Qed.

(** A handler that does not hold the mutex has not started or has
    finished. *)
Lemma svc_outside (pc : nat) :
  holds_mutex (firstn pc svc) = false ->
  pc = 0%nat \/ (List.length svc <= pc)%nat.
Proof.
  destruct svc_ok as (body & -> & Q & _). intros Hh.
  destruct pc as [| pc]; [left; reflexivity | right].
  simpl in *.
  destruct (Nat.lt_ge_cases pc (List.length (body ++ [EvUnlock]))) as [L | L];
    [exfalso | lia].
  rewrite List.length_app in L. simpl in L.
  rewrite List.firstn_app in Hh.
  replace (pc - List.length body)%nat with 0%nat in Hh by lia.
  simpl in Hh. rewrite List.app_nil_r in Hh.
  unfold holds_mutex in Hh. simpl in Hh.
  rewrite fold_held_quiet in Hh; [discriminate |].
  rewrite List.forallb_forall in *. intros e I.
  apply In_firstn in I. specialize (Q e I).
  destruct e; simpl in *; try discriminate; reflexivity.
Qed.
End InterleavingFacts.

Section InterleavingSafety.
Variables loop svc : list event.
Variable fg0 : FrameGrabber.
Hypothesis loop_ok : loop_shaped loop.
Hypothesis svc_ok : handler_shaped svc.

Lemma owner_is_other (t t' : tid) (mu : option tid) :
  owner_is t mu = true -> tid_eqb t t' = false -> owner_is t' mu = false.
Proof.
  destruct mu as [[|] |], t, t'; simpl; intros; congruence.
Qed.

(** A frame the loop takes while it holds the mutex is settled. *)
Lemma wait_is_settled (m : machine) (t : Z) :
  invariant loop svc fg0 m ->
  nth_error loop (loop_pc m) = Some (EvWaitForFrame t) ->
  settled fg0 svc (mkAcq (slot m) (constructing m) (phase_of svc (svc_pc m))).
Proof.
  intros (I1 & I2 & I3 & I4 & _) N.
  rewrite (loop_wait_holds loop loop_ok _ _ N) in I1. symmetry in I1.
  rewrite (owner_is_other LoopThread ServiceThread _ I1 eq_refl) in I2.
  unfold settled, phase_of. simpl.
  destruct (svc_outside svc svc_ok _ I2) as [Z0 | Ge].
  - rewrite Z0 in *. simpl in *. split; [exact I4 |].
    left. split; [reflexivity |]. rewrite I3. unfold count. simpl. lia.
  - rewrite List.firstn_all2 in I3, I4 by exact Ge.
    destruct svc_ok as (body & E & _ & Hb).
    split; [rewrite I4; exact Hb |].
    destruct (Nat.eqb (svc_pc m) 0) eqn:Ez.
    + apply Nat.eqb_eq in Ez. rewrite E in Ge. simpl in Ge. lia.
    + right. apply Nat.leb_le in Ge. rewrite Ge. split; [reflexivity | exact I3].
Qed.

Ltac proj_machine :=
  unfold advance; cbn [loop_pc svc_pc fg_mutex_ slot constructing acquired].

(** Every operation of either thread preserves the invariant. *)
Lemma exec_invariant (t : tid) (m m' : machine) :
  invariant loop svc fg0 m ->
  exec loop svc t m = Some m' ->
  invariant loop svc fg0 m'.
Proof.
  intros I X. pose proof I as (I1 & I2 & I3 & I4 & I5).
  unfold exec in X. destruct t; simpl in X.
  - (* the loop thread *)
    destruct (nth_error loop (loop_pc m)) as [e |] eqn:N; [| discriminate].
    pose proof (firstn_S_nth _ _ _ N) as F.
    pose proof (loop_writes_no_slot loop loop_ok _ _ N) as W.
    unfold invariant.
    destruct e; simpl in W; try discriminate;
      try (injection X as <-; proj_machine; rewrite F, holds_mutex_snoc; simpl;
           repeat split; assumption).
    + destruct (fg_mutex_ m) as [o |] eqn:Mu; [discriminate |].
      injection X as <-. proj_machine. rewrite F, holds_mutex_snoc. simpl.
      simpl in I2. repeat split; assumption.
    + destruct (fg_mutex_ m) as [o |] eqn:Mu; [| discriminate].
      destruct o; simpl in X; [| discriminate].
      injection X as <-. proj_machine. rewrite F, holds_mutex_snoc. simpl.
      simpl in I2. repeat split; assumption.
    + injection X as <-. proj_machine. rewrite F, holds_mutex_snoc. simpl.
      repeat split; try assumption.
      apply List.Forall_app. split; [exact I5 |].
      constructor; [| constructor].
      apply (wait_is_settled m timeout_millis I N).
  - (* the service thread *)
    destruct (nth_error svc (svc_pc m)) as [e |] eqn:N; [| discriminate].
    pose proof (firstn_S_nth _ _ _ N) as F.
    pose proof (svc_waits_not svc svc_ok _ _ N) as W.
    unfold invariant.
    destruct e; simpl in W; try discriminate;
      try (injection X as <-; proj_machine;
           rewrite F, holds_mutex_snoc, half_built_snoc, count_snoc; simpl;
           repeat split; try assumption; lia).
    + destruct (fg_mutex_ m) as [o |] eqn:Mu; [discriminate |].
      injection X as <-. proj_machine.
      rewrite F, holds_mutex_snoc, half_built_snoc, count_snoc. simpl.
      simpl in I1. repeat split; try assumption; lia.
    + destruct (fg_mutex_ m) as [o |] eqn:Mu; [| discriminate].
      destruct o; simpl in X; [discriminate |].
      injection X as <-. proj_machine.
      rewrite F, holds_mutex_snoc, half_built_snoc, count_snoc. simpl.
      simpl in I1. repeat split; try assumption; lia.
Qed.

Lemma boot_invariant : invariant loop svc fg0 (boot fg0).
Proof.
  unfold invariant, boot. simpl. repeat split.
  - unfold count. simpl. lia.
  - constructor.
Qed.

Lemma run_schedule_invariant (sched : list tid) (m m' : machine) :
  invariant loop svc fg0 m ->
  run_schedule loop svc sched m = Some m' ->
  invariant loop svc fg0 m'.
Proof.
  revert m. induction sched as [| t sched IH]; intros m I R; simpl in R.
  - injection R as <-. exact I.
  - destruct (exec loop svc t m) as [m1 |] eqn:X; [| discriminate].
    apply (IH m1); [| exact R].
    apply (exec_invariant t m m1 I X).
Qed.

(** The mutex has one owner at most, and its owner is the thread that is
    between its lock and its unlock. *)
Lemma never_both_hold (m : machine) :
  invariant loop svc fg0 m ->
  holds_mutex (firstn (loop_pc m) loop) && holds_mutex (firstn (svc_pc m) svc)
  = false.
Proof.
  intros (I1 & I2 & _). rewrite I1, I2.
  destruct (fg_mutex_ m) as [[|] |]; reflexivity.
Qed.
End InterleavingSafety.

Section ProgramShapes.
Context {Cam DeviceConfig : Type} `{Camera Cam DeviceConfig}.

Lemma guarded_calls_are_inside (pre : list event) :
  List.forallb is_guarded_call pre = true ->
  List.forallb (fun e => negb (is_lock_op e || is_wait e)) pre = true.
Proof.
  intros G. rewrite List.forallb_forall in *. intros e I.
  specialize (G e I). destruct e; simpl in *; try discriminate; reflexivity.
Qed.

(** Each handler, on every path through it, takes the mutex first, releases
    it last and leaves no grabber half installed. *)
Lemma handler_program_shaped (op : admin_op) (n : O3D3xxNode Cam) :
  handler_shaped (handler_program op n).
Proof.
  destruct op as [| req | req]; unfold handler_program, handler_shaped.
  - destruct (ToJSON (cam_ n)) as [c [cfg | [code what | what]]] eqn:E.
    + rewrite (Dump_returns (mkEnv n default_DumpResponse []) c cfg E). simpl.
      exists [EvToJSON; EvNewFrameGrabber; EvFgReset]. repeat split.
    + rewrite (Dump_error_t (mkEnv n default_DumpResponse []) c code what E).
      simpl. exists [EvToJSON; EvNewFrameGrabber; EvFgReset]. repeat split.
    + rewrite (Dump_std_exception (mkEnv n default_DumpResponse []) c what E).
      simpl. exists [EvToJSON]. repeat split.
  - rewrite Config_run. simpl.
    exists [EvFromJSON (json req); EvNewFrameGrabber; EvFgReset]. repeat split.
  - rewrite Rm_unfold.
    destruct (Rm_try_log req (at_try (mkEnv n default_StatusMsg [])))
      as (pre & L & _ & G & _).
    destruct (Rm_try req (at_try (mkEnv n default_StatusMsg []))) as [s1 r].
    simpl in L.
    destruct (CancelSession (cam_ (self s1))) as [c b]. simpl. rewrite L.
    exists (pre ++ [EvCancelSession; EvNewFrameGrabber; EvFgReset]).
    split; [| split].
    + simpl. rewrite <- List.app_assoc. reflexivity.
    + rewrite List.forallb_app, (guarded_calls_are_inside pre G). reflexivity.
    + change (EvLock :: pre) with ([EvLock] ++ pre).
      replace (([EvLock] ++ pre) ++
               [EvCancelSession; EvNewFrameGrabber; EvFgReset; EvUnlock])
        with (((([EvLock] ++ pre) ++ [EvCancelSession; EvNewFrameGrabber])
                ++ [EvFgReset]) ++ [EvUnlock])
        by (repeat rewrite <- List.app_assoc; reflexivity).
      rewrite !half_built_snoc. reflexivity.
Qed.

Lemma loop_program_shaped (WaitForFrame : nat -> FrameGrabber -> Z -> bool)
    (i : nat) (n : O3D3xxNode Cam) :
  loop_shaped (loop_program WaitForFrame i n).
Proof.
  unfold loop_program, loop_shaped.
  destruct (Run_iteration_shape WaitForFrame i (mkEnv n tt [])) as (rest & E & Q).
  rewrite E. simpl. eauto.
Qed.
End ProgramShapes.

(** C1.  Take any administrative operation, any camera, any pass through the
    loop body and any schedule that interleaves the operations of the two
    threads, the mutex blocking whoever asks for it while it is taken.
    Whenever the loop takes a frame, no replacement grabber is under
    construction and the handler is either not started, the slot holding the
    grabber it held at the outset, or finished, the slot holding the grabber
    the handler has left there.  The two threads never hold the mutex
    together. *)
Theorem frames_come_from_settled_connection :
  forall (Cam DeviceConfig : Type) (H : Camera Cam DeviceConfig)
         (op : admin_op) (n : O3D3xxNode Cam)
         (WaitForFrame : nat -> FrameGrabber -> Z -> bool) (i : nat)
         (sched : list tid) (m : machine),
    run_schedule (loop_program WaitForFrame i n) (handler_program op n)
                 sched (boot (fg_ n)) = Some m ->
    List.Forall (settled (fg_ n) (handler_program op n)) (acquired m) /\
    holds_mutex (firstn (loop_pc m) (loop_program WaitForFrame i n)) &&
    holds_mutex (firstn (svc_pc m) (handler_program op n)) = false.
Proof.
  intros Cam DeviceConfig H op n WaitForFrame i sched m R.
  assert (I : invariant (loop_program WaitForFrame i n) (handler_program op n)
                (fg_ n) m).
  { apply (run_schedule_invariant _ _ _
             (loop_program_shaped WaitForFrame i n)
             (handler_program_shaped op n) sched (boot (fg_ n)) m).
    - apply boot_invariant.
    - exact R. }
  split.
  - destruct I as (_ & _ & _ & _ & I5). exact I5.
  - apply (never_both_hold _ _ _ m I).
Qed.

(** C1 (witness): the loop takes the mutex and waits; [Dump] then runs while
    the loop publishes nothing but its warning; the frame was taken from
    grabber 0 before [Dump] had started. *)
Lemma frames_come_from_settled_connection_witness :
  let n := Mock.node (Mock.idle []) in
  let loop := loop_program (fun _ _ _ => false) 0 n in
  let svc := handler_program OpDump n in
  exists m,
    run_schedule loop svc
      [LoopThread; LoopThread; LoopThread; ServiceThread; LoopThread;
       ServiceThread; ServiceThread; ServiceThread; ServiceThread]
      (boot 0%nat) = Some m /\
    acquired m = [mkAcq 0%nat false NotStarted] /\
    slot m = 1%nat /\
    List.Forall (settled 0%nat svc) (acquired m).
Proof.
  cbv zeta. eexists. split; [vm_compute; reflexivity |].
  split; [reflexivity |]. split; [reflexivity |].
  apply (proj1 (frames_come_from_settled_connection _ _ Mock.camera OpDump
                  (Mock.node (Mock.idle [])) (fun _ _ _ => false) 0
                  [LoopThread; LoopThread; LoopThread; ServiceThread; LoopThread;
                   ServiceThread; ServiceThread; ServiceThread; ServiceThread]
                  _ ltac:(vm_compute; reflexivity))).
Defined.

(** * Further properties of the loop *)

Section RunFacts.
Context {Cam : Type}.
Variable ros_ok : nat -> bool.
Variable WaitForFrame : nat -> FrameGrabber -> Z -> bool.

(** The log of the j-th pass on node [n]. *)
Local Abbreviation pass_of n j :=
  (pass_log (publish_viz_images_ n) (frame_id_ n) (timeout_millis_ n)
            (WaitForFrame j (fg_ n) (timeout_millis_ n))).

Lemma Run_iteration_log (i : nat) (s : env Cam unit) :
  Run_iteration WaitForFrame i s =
    (mkEnv (self s) (res s) (log s ++ pass_of (self s) i), Returns tt).
Proof.
  unfold Run_iteration, publish, pass_log, timeout_pass. unfold_handler.
  destruct (WaitForFrame i (fg_ (self s)) (timeout_millis_ (self s))); simpl.
  - destruct (publish_viz_images_ (self s)); simpl; norm_log; reflexivity.
  - norm_log. reflexivity.
Qed.

(** The loop never aborts; it adds one pass to the log for every test of
    [ros::ok()] that succeeded, and has exited when a test failed before the
    fuel ran out. *)
Lemma Run_loop_log (fuel i : nat) (s : env Cam unit) :
  Run_loop ros_ok WaitForFrame fuel i s =
    (mkEnv (self s) (res s)
           (log s ++ List.concat
                       (List.map (fun j => pass_of (self s) j)
                                 (List.seq i (passes ros_ok fuel i)))),
     if Nat.ltb (passes ros_ok fuel i) fuel then Exited else Spinning).
Proof.
  revert i s. induction fuel as [| fuel IH]; intros i s; simpl.
  - rewrite List.app_nil_r. destruct s; reflexivity.
  - destruct (ros_ok i) eqn:Ok.
    + rewrite Run_iteration_log, IH. simpl.
      rewrite <- List.app_assoc. reflexivity.
    + simpl. rewrite List.app_nil_r. destruct s; reflexivity.
Qed.

Lemma passes_le (fuel i : nat) : (passes ros_ok fuel i <= fuel)%nat.
Proof.
  revert i. induction fuel as [| fuel IH]; intros i; simpl; [lia |].
  destruct (ros_ok i); [specialize (IH (S i)) |]; lia.
Qed.



Lemma disciplined_app (h : bool) (l1 l2 : list event) :
  disciplined h (l1 ++ l2) =
    match disciplined h l1 with
    | Some h' => disciplined h' l2
    | None => None
    end.
Proof.
  revert h. induction l1 as [| e l1 IH]; intros h; simpl; [reflexivity |].
  destruct e, h; simpl; auto.
Qed.

Lemma disciplined_pass (viz : bool) (fid : string) (t : Z) (got : bool) :
  disciplined false (pass_log viz fid t got) = Some false.
Proof. destruct got, viz; reflexivity. Qed.

Lemma disciplined_passes (viz : bool) (fid : string) (t : Z)
    (got : nat -> bool) (js : list nat) :
  disciplined false
    (List.concat (List.map (fun j => pass_log viz fid t (got j)) js))
  = Some false.
Proof.
  induction js as [| j js IH]; simpl; [reflexivity |].
  rewrite disciplined_app, disciplined_pass. exact IH.
Qed.

(** Counting in the log of a run of passes: [a] per pass with a frame, [b]
    per pass without. *)
Lemma count_passes (p : event -> bool) (viz : bool) (fid : string) (t : Z)
    (got : nat -> bool) (a b : nat) (js : list nat) :
  count p (pass_log viz fid t true) = a ->
  count p (pass_log viz fid t false) = b ->
  (count p (List.concat (List.map (fun j => pass_log viz fid t (got j)) js))
   + b * List.length (List.filter got js)
   = a * List.length (List.filter got js) + b * List.length js)%nat.
Proof.
  intros A B. induction js as [| j js IH]; [simpl; lia |].
  cbn [List.map List.concat List.filter List.length].
  rewrite count_app.
  destruct (got j); cbn [List.length]; rewrite ?A, ?B; nia.
Qed.

Lemma filter_length_le (got : nat -> bool) (js : list nat) :
  (List.length (List.filter got js) <= List.length js)%nat.
Proof.
  induction js as [| j js IH]; simpl; [lia |]. destruct (got j); simpl; lia.
Qed.

Lemma publishes_carry_frame_id (viz : bool) (fid : string) (t : Z)
    (got : nat -> bool) (js : list nat) :
  List.Forall (fun e => forall topic f, e = EvPublish topic f -> f = fid)
    (List.concat (List.map (fun j => pass_log viz fid t (got j)) js)).
Proof.
  induction js as [| j js IH]; simpl; [constructor |].
  apply List.Forall_app. split; [| exact IH].
  unfold pass_log, timeout_pass.
  destruct (got j), viz; simpl;
    repeat (constructor; [intros topic f E; congruence |]); constructor.
Qed.

Lemma waits_carry_timeout (viz : bool) (fid : string) (t : Z)
    (got : nat -> bool) (js : list nat) :
  List.Forall (fun e => forall t', e = EvWaitForFrame t' -> t' = t)
    (List.concat (List.map (fun j => pass_log viz fid t (got j)) js)).
Proof.
  induction js as [| j js IH]; simpl; [constructor |].
  apply List.Forall_app. split; [| exact IH].
  unfold pass_log, timeout_pass.
  destruct (got j), viz; simpl;
    repeat (constructor; [intros t' E; congruence |]); constructor.
Qed.
End RunFacts.


Lemma pass_run_accounting (viz : bool) (fid : string) (t : Z)
    (got : nat -> bool) (js : list nat) :
  let l := List.concat (List.map (fun j => pass_log viz fid t (got j)) js) in
  count is_wait l = List.length js /\
  count is_publish l =
    ((if viz then 7 else 4) * List.length (List.filter got js))%nat /\
  (count is_warn l + List.length (List.filter got js))%nat = List.length js.
Proof.
  intros l.
  pose proof (filter_length_le got js) as Le.
  pose proof (count_passes is_wait viz fid t got 1 1 js
                ltac:(destruct viz; reflexivity) eq_refl) as Cw.
  pose proof (count_passes is_publish viz fid t got (if viz then 7 else 4) 0 js
                ltac:(destruct viz; reflexivity) eq_refl) as Cp.
  pose proof (count_passes is_warn viz fid t got 0 1 js
                ltac:(destruct viz; reflexivity) eq_refl) as Cn.
  fold l in Cw, Cp, Cn. repeat split; lia.
Qed.

Lemma Run_log {Cam : Type} (ros_ok : nat -> bool)
    (WaitForFrame : nat -> FrameGrabber -> Z -> bool)
    (fuel : nat) (s : env Cam unit) :
  Run ros_ok WaitForFrame fuel s =
    (mkEnv (self s) (res s)
       (log s ++ EvSpinnerStart ::
          List.concat
            (List.map
               (fun j => pass_log (publish_viz_images_ (self s))
                           (frame_id_ (self s)) (timeout_millis_ (self s))
                           (WaitForFrame j (fg_ (self s)) (timeout_millis_ (self s))))
               (List.seq 0 (passes ros_ok fuel 0)))),
     if Nat.ltb (passes ros_ok fuel 0) fuel then Exited else Spinning).
Proof.
  unfold Run. rewrite Run_loop_log. simpl.
  rewrite <- List.app_assoc. reflexivity.
Qed.

(** X1.  Whatever [ros::ok()] and the waits answer and however long the loop
    runs, the operations [Run] performs keep the mutex discipline: the mutex
    is taken only when free and released only when held, every
    [WaitForFrame] happens with the mutex held, every message is published
    and every warning logged with the mutex free, and the mutex is free when
    the loop is back at its head. *)
Theorem Run_publishes_outside_the_mutex :
  forall (Cam : Type) (ros_ok : nat -> bool)
         (WaitForFrame : nat -> FrameGrabber -> Z -> bool)
         (fuel : nat) (s : env Cam unit),
  exists added,
    log (fst (Run ros_ok WaitForFrame fuel s)) = log s ++ added /\
    disciplined false added = Some false.
Proof.
  intros. rewrite Run_log. simpl. eexists. split; [reflexivity |].
  simpl. apply disciplined_passes.
Qed.

(** X2.  Message accounting of [Run].  With [n] the number of passes made and
    [f] the number of them whose wait brought a frame: the loop has waited
    [n] times, always with the node's [timeout_millis_]; it has published 4
    messages for each frame, 7 when [publish_viz_images_] is set, all of them
    stamped with the node's [frame_id_]; and it has logged one warning for
    each of the other passes. *)
Theorem Run_message_accounting :
  forall (Cam : Type) (ros_ok : nat -> bool)
         (WaitForFrame : nat -> FrameGrabber -> Z -> bool)
         (fuel : nat) (s : env Cam unit),
  let n := passes ros_ok fuel 0 in
  let f := frames_among WaitForFrame (fg_ (self s)) (timeout_millis_ (self s)) 0 n in
  exists added,
    log (fst (Run ros_ok WaitForFrame fuel s)) = log s ++ added /\
    count is_wait added = n /\
    count is_publish added =
      ((if publish_viz_images_ (self s) then 7 else 4) * f)%nat /\
    (count is_warn added + f)%nat = n /\
    List.Forall (fun e => forall topic fid,
                   e = EvPublish topic fid -> fid = frame_id_ (self s)) added /\
    List.Forall (fun e => forall t,
                   e = EvWaitForFrame t -> t = timeout_millis_ (self s)) added.
Proof.
  intros Cam ros_ok W fuel s n f. rewrite Run_log. simpl.
  eexists. split; [reflexivity |].
  destruct (pass_run_accounting (publish_viz_images_ (self s))
              (frame_id_ (self s)) (timeout_millis_ (self s))
              (fun j => W j (fg_ (self s)) (timeout_millis_ (self s)))
              (List.seq 0 (passes ros_ok fuel 0))) as (Cw & Cp & Cn).
  rewrite List.length_seq in Cw, Cn.
  change (EvSpinnerStart :: ?l) with ([EvSpinnerStart] ++ l).
  rewrite !count_app.
  change (count is_wait [EvSpinnerStart]) with 0%nat.
  change (count is_publish [EvSpinnerStart]) with 0%nat.
  change (count is_warn [EvSpinnerStart]) with 0%nat.
  unfold f, n, frames_among. simpl.
  repeat split.
  - exact Cw.
  - exact Cp.
  - exact Cn.
  - constructor; [intros ? ? E; discriminate |].
    apply publishes_carry_frame_id.
  - constructor; [intros ? E; discriminate |].
    apply waits_carry_timeout.
Qed.



(** * Further properties of the handlers *)

Section ServingFacts.
Context {Cam DeviceConfig : Type} `{Camera Cam DeviceConfig}.

Lemma disciplined_guarded (pre : list event) :
  List.forallb is_guarded_call pre = true ->
  disciplined true pre = Some true.
Proof.
  induction pre as [| e pre IH]; intros G; simpl in *; [reflexivity |].
  apply andb_prop in G. destruct G as [Ge G].
  destruct e; simpl in *; try discriminate; auto.
Qed.

(** The try block of [Rm] changes nothing of the node but the camera. *)
Lemma Rm_try_node (req : RmRequest) (s : env Cam RmResponse) :
  exists c, self (fst (Rm_try req s)) = set_cam c (self s).
Proof.
  unfold_handler.
  destruct (0 <? index req); simpl.
  2: { exists (cam_ (self s)). destruct (self s); reflexivity. }
  destruct (RequestSession (cam_ (self s))) as [c1 [sid | e1]]; simpl;
    [| exists c1; reflexivity].
  destruct (SetOperatingMode EDIT c1) as [c2 [u2 | e2]]; simpl;
    [| exists c2; reflexivity].
  destruct (GetDeviceConfig c2) as [c3 [dev | e3]]; simpl;
    [| exists c3; reflexivity].
  destruct (ActiveApplication dev =? index req); simpl;
    [exists c3; reflexivity |].
  destruct (DeleteApplication (index req) c3) as [c4 [u4 | e4]]; simpl;
    exists c4; reflexivity.
Qed.

(** What one served request does to the node and to the log. *)
Lemma handler_step (op : admin_op) (n : O3D3xxNode Cam) :
  disciplined false (handler_program op n) = Some false /\
  fg_ (handler_node op n) =
    (fg_ n + if handler_returns op n then 1 else 0)%nat /\
  count is_fg_reset (handler_program op n) =
    (if handler_returns op n then 1 else 0)%nat /\
  timeout_millis_ (handler_node op n) = timeout_millis_ n /\
  publish_viz_images_ (handler_node op n) = publish_viz_images_ n /\
  frame_id_ (handler_node op n) = frame_id_ n /\
  (match op with OpDump => True | _ => handler_returns op n = true end).
Proof.
  destruct op as [| req | req];
    unfold handler_program, handler_node, handler_returns.
  - destruct (ToJSON (cam_ n)) as [c [cfg | [code what | what]]] eqn:E.
    + rewrite (Dump_returns (mkEnv n default_DumpResponse []) c cfg E). simpl.
      repeat split. lia.
    + rewrite (Dump_error_t (mkEnv n default_DumpResponse []) c code what E).
      simpl. repeat split. lia.
    + rewrite (Dump_std_exception (mkEnv n default_DumpResponse []) c what E).
      simpl. repeat split. lia.
  - rewrite Config_run. simpl. repeat split. lia.
  - rewrite Rm_unfold.
    destruct (Rm_try_log req (at_try (mkEnv n default_StatusMsg [])))
      as (pre & L & G & P & _).
    destruct (Rm_try_node req (at_try (mkEnv n default_StatusMsg [])))
      as (c0 & N).
    destruct (Rm_try req (at_try (mkEnv n default_StatusMsg []))) as [s1 r].
    simpl in L, G, N.
    destruct (CancelSession (cam_ (self s1))) as [c b]. simpl.
    rewrite L, N. simpl.
    assert (Z0 : count is_fg_reset pre = 0%nat).
    { clear L. induction pre as [| e pre IH]; [reflexivity |].
      simpl in P. apply andb_prop in P. destruct P as [Pe P].
      unfold count in *. simpl.
      destruct e; simpl in *; try discriminate; auto. }
    repeat split.
    + rewrite disciplined_app, (disciplined_guarded pre P). reflexivity.
    + lia.
    + change (EvLock :: pre ++ ?l) with ([EvLock] ++ pre ++ l).
      rewrite !count_app, Z0. reflexivity.
Qed.

Lemma serve_all_facts (ops : list admin_op) (n : O3D3xxNode Cam) :
  let '(n', l, k) := serve_all ops n in
  disciplined false l = Some false /\
  fg_ n' = (fg_ n + k)%nat /\
  count is_fg_reset l = k /\
  timeout_millis_ n' = timeout_millis_ n /\
  publish_viz_images_ n' = publish_viz_images_ n /\
  frame_id_ n' = frame_id_ n /\
  (List.forallb (fun op => match op with OpDump => false | _ => true end) ops
   = true -> k = List.length ops).
Proof.
  revert n. induction ops as [| op ops IH]; intros n; simpl.
  - repeat split; lia.
  - specialize (IH (handler_node op n)).
    destruct (serve_all ops (handler_node op n)) as [[n' l] k].
    destruct IH as (D & G & C & T & V & F & A).
    destruct (handler_step op n) as (D1 & G1 & C1 & T1 & V1 & F1 & A1).
    repeat split.
    + rewrite disciplined_app, D1. exact D.
    + rewrite G, G1. lia.
    + rewrite count_app, C, C1. reflexivity.
    + rewrite T. exact T1.
    + rewrite V. exact V1.
    + rewrite F. exact F1.
    + intros Hall. apply andb_prop in Hall. destruct Hall as [Ho Hall].
      rewrite (A Hall).
      destruct op; [discriminate | |]; rewrite A1; reflexivity.
Qed.
End ServingFacts.

(** X5.  Serve any list of Dump, Config and Rm requests one after the other,
    on any camera.  The handlers keep the mutex discipline on every path:
    each camera call and each replacement of the frame grabber happens with
    the mutex held, and the mutex is free after every handler, also one left
    by an exception.  The frame grabber is replaced once for each handler
    that returned, which is every Config and every Rm; the timeout, the
    visualisation flag and the frame id of the node are never changed. *)
Theorem served_requests_keep_discipline :
  forall (Cam DeviceConfig : Type) (H : Camera Cam DeviceConfig)
         (ops : list admin_op) (n : O3D3xxNode Cam),
    disciplined false (snd (fst (serve_all ops n))) = Some false /\
    fg_ (fst (fst (serve_all ops n))) = (fg_ n + snd (serve_all ops n))%nat /\
    count is_fg_reset (snd (fst (serve_all ops n))) = snd (serve_all ops n) /\
    timeout_millis_ (fst (fst (serve_all ops n))) = timeout_millis_ n /\
    publish_viz_images_ (fst (fst (serve_all ops n))) = publish_viz_images_ n /\
    frame_id_ (fst (fst (serve_all ops n))) = frame_id_ n /\
    (List.forallb (fun op => match op with OpDump => false | _ => true end) ops
     = true -> snd (serve_all ops n) = List.length ops).
Proof.
  intros Cam DeviceConfig H ops n.
  pose proof (serve_all_facts ops n) as F.
  destruct (serve_all ops n) as [[n' l] k]. exact F.
Qed.

(** X5 (witness): a Config that fails to parse and an Rm the device rejects
    still replace the frame grabber once each. *)
Lemma served_requests_keep_discipline_witness :
  snd (serve_all [OpConfig {| json := "{" |}; OpRm {| index := 2 |}]
         (Mock.node (Mock.idle [Some (std_exception "parse error");
                                Some (error_t 5 "session busy")])))
  = 2%nat.
Proof.
  apply (proj2 (proj2 (proj2 (proj2 (proj2 (proj2
           (served_requests_keep_discipline _ _ Mock.camera
              [OpConfig {| json := "{" |}; OpRm {| index := 2 |}]
              (Mock.node (Mock.idle [Some (std_exception "parse error");
                                     Some (error_t 5 "session busy")]))))))))).
  reflexivity.
Defined.

Section RmGuard.
Context {Cam DeviceConfig : Type} `{Camera Cam DeviceConfig}.

(** The try block of [Rm] performs an initial part of its four calls, and
    reaches the deletion only through a granted session, EDIT mode and a
    configuration that names another application as active. *)
Lemma Rm_try_prefix (req : RmRequest) (s : env Cam RmResponse) :
  exists k,
    (k <= 4)%nat /\
    log (fst (Rm_try req s)) = log s ++ firstn k (guarded_sequence (index req)) /\
    (k = 4%nat ->
     0 < index req /\
     exists c1 sid c2 u c3 dev,
       RequestSession (cam_ (self s)) = (c1, Returns sid) /\
       SetOperatingMode EDIT c1 = (c2, Returns u) /\
       GetDeviceConfig c2 = (c3, Returns dev) /\
       ActiveApplication dev <> index req).
Proof.
  unfold_handler.
  destruct (0 <? index req) eqn:Hi; simpl.
  2: { exists 0%nat. rewrite List.app_nil_r. (split; [lia | split; [reflexivity | intros K; lia]]). }
  apply Z.ltb_lt in Hi.
  destruct (RequestSession (cam_ (self s))) as [c1 [sid | e1]] eqn:E1; simpl.
  2: { exists 1%nat. (split; [lia | split; [reflexivity | intros K; lia]]). }
  destruct (SetOperatingMode EDIT c1) as [c2 [u2 | e2]] eqn:E2; simpl.
  2: { exists 2%nat. norm_log. (split; [lia | split; [reflexivity | intros K; lia]]). }
  destruct (GetDeviceConfig c2) as [c3 [dev | e3]] eqn:E3; simpl.
  2: { exists 3%nat. norm_log. (split; [lia | split; [reflexivity | intros K; lia]]). }
  destruct (ActiveApplication dev =? index req) eqn:Ea; simpl.
  { exists 3%nat. norm_log. (split; [lia | split; [reflexivity | intros K; lia]]). }
  apply Z.eqb_neq in Ea.
  destruct (DeleteApplication (index req) c3) as [c4 [u4 | e4]]; simpl;
    exists 4%nat; norm_log;
    (split; [lia | split; [reflexivity | intros _; split; [exact Hi |]]]);
    exists c1, sid, c2, u2, c3, dev; auto.
Qed.

Lemma delete_in_prefix (idx i : Z) (k : nat) :
  List.In (EvDeleteApplication i) (firstn k (guarded_sequence idx)) ->
  (4 <= k)%nat /\ i = idx.
Proof.
  unfold guarded_sequence.
  destruct k as [| [| [| [| k]]]]; simpl; rewrite ?List.firstn_nil; intros I;
    repeat (destruct I as [I | I]; [try discriminate |]); try contradiction.
  injection I as <-. split; [lia | reflexivity].
Qed.
End RmGuard.

(** X6.  On every call of [Rm], whatever the camera does, the calls between
    taking the mutex and [CancelSession] are an initial part of:
    RequestSession, SetOperatingMode(EDIT), GetDeviceConfig, DeleteApplication
    on the requested index.  So an application is deleted only if its index
    is the requested one and is positive, the session was granted, the device
    was switched to EDIT, and the configuration read just before names
    another application as active. *)
Theorem Rm_deletes_only_requested_inactive :
  forall (Cam DeviceConfig : Type) (H : Camera Cam DeviceConfig)
         (req : RmRequest) (s : env Cam RmResponse),
    exists k added,
      added = EvLock :: firstn k (guarded_sequence (index req)) ++
                [EvCancelSession; EvNewFrameGrabber; EvFgReset; EvUnlock] /\
      log (fst (Rm req s)) = log s ++ added /\
      (forall i : Z,
          List.In (EvDeleteApplication i) added ->
          i = index req /\ 0 < i /\
          exists c1 sid c2 u c3 dev,
            RequestSession (cam_ (self s)) = (c1, Returns sid) /\
            SetOperatingMode EDIT c1 = (c2, Returns u) /\
            GetDeviceConfig c2 = (c3, Returns dev) /\
            ActiveApplication dev <> i).
Proof.
  intros Cam DeviceConfig H req s.
  rewrite Rm_unfold.
  destruct (Rm_try_prefix req (at_try s)) as (k & Le & L & D).
  destruct (Rm_try req (at_try s)) as [s1 r]. simpl in L, D.
  destruct (CancelSession (cam_ (self s1))) as [c b]. simpl.
  exists k. eexists. split; [reflexivity |]. split.
  - rewrite L. norm_log. reflexivity.
  - intros i I. simpl in I. destruct I as [I | I]; [discriminate |].
    apply List.in_app_or in I. destruct I as [I | I].
    + destruct (delete_in_prefix _ _ _ I) as (K & ->).
      assert (K4 : k = 4%nat) by lia.
      destruct (D K4) as (Hi & W). auto.
    + simpl in I.
      repeat (destruct I as [I | I]; [discriminate |]). contradiction.
Qed.

(** X6 (witness): the deletion of application 2 on the scripted camera went
    through a granted session and a configuration naming application 1. *)
Lemma Rm_deletes_only_requested_inactive_witness :
  exists added,
    log (fst (Rm {| index := 2 |} (Mock.start default_StatusMsg (Mock.idle []))))
    = [] ++ added /\
    (List.In (EvDeleteApplication 2) added -> 0 < 2).
Proof.
  destruct (Rm_deletes_only_requested_inactive _ _ Mock.camera {| index := 2 |}
              (Mock.start default_StatusMsg (Mock.idle [])))
    as (k & added & _ & L & D).
  exists added. split; [exact L |].
  intros I. destruct (D 2 I) as (_ & P & _). exact P.
Defined.

(** X7.  When [Rm] gets as far as the deletion (positive index, session
    granted, EDIT mode entered, configuration read and naming another
    application), the response tells how the deletion went: status 0 and "OK"
    if [DeleteApplication] returned, the error's code and message if it threw
    a device error, -1 and the message for any other exception.  In each case
    the handler returns [true] and leaves the camera as [CancelSession] left
    it after the deletion. *)
Theorem Rm_response_after_deletion :
  forall (Cam DeviceConfig : Type) (H : Camera Cam DeviceConfig)
         (req : RmRequest) (s : env Cam RmResponse)
         (c1 c2 c3 : Cam) (sid : string) (u : unit) (dev : DeviceConfig),
    0 < index req ->
    RequestSession (cam_ (self s)) = (c1, Returns sid) ->
    SetOperatingMode EDIT c1 = (c2, Returns u) ->
    GetDeviceConfig c2 = (c3, Returns dev) ->
    ActiveApplication dev <> index req ->
    snd (Rm req s) = Returns true /\
    res (fst (Rm req s)) =
      (match snd (DeleteApplication (index req) c3) with
       | Returns _ => mkStatusMsg 0 "OK"
       | Throws (error_t code what) => mkStatusMsg code what
       | Throws (std_exception what) => mkStatusMsg (-1) what
       end) /\
    cam_ (self (fst (Rm req s))) =
      fst (CancelSession (fst (DeleteApplication (index req) c3))).
Proof.
  intros Cam DeviceConfig H req s c1 c2 c3 sid u dev Hi E1 E2 E3 Ea.
  rewrite (Rm_delete req s c1 sid c2 u c3 dev Hi E1 E2 E3 Ea). simpl.
  repeat split.
Qed.

(** X7 (witness): the device refuses the deletion itself. *)
Lemma Rm_response_after_deletion_witness :
  res (fst (Rm {| index := 3 |}
              (Mock.start default_StatusMsg
                 (Mock.idle [None; None; None; Some (error_t 9 "in use")]))))
  = mkStatusMsg 9 "in use".
Proof.
  edestruct (Rm_response_after_deletion _ _ Mock.camera {| index := 3 |}
               (Mock.start default_StatusMsg
                  (Mock.idle [None; None; None; Some (error_t 9 "in use")])))
    as (_ & R & _).
  - simpl. lia.
  - reflexivity.
  - reflexivity.
  - reflexivity.
  - simpl. lia.
  - exact R.
Defined.

Section ResponseFacts.
Context {Cam DeviceConfig : Type} `{Camera Cam DeviceConfig}.

(** The try block of [Rm] reads nothing of the response and nothing of the
    log. *)
Lemma Rm_try_same (req : RmRequest) (s s' : env Cam RmResponse) :
  self s = self s' -> res s = res s' ->
  self (fst (Rm_try req s)) = self (fst (Rm_try req s')) /\
  res (fst (Rm_try req s)) = res (fst (Rm_try req s')) /\
  snd (Rm_try req s) = snd (Rm_try req s').
Proof.
  destruct s as [n r l], s' as [n' r' l']. simpl. intros <- <-.
  unfold_handler.
  destruct (0 <? index req); simpl; [| auto].
  destruct (RequestSession (cam_ n)) as [c1 [sid | e1]]; simpl; [| auto].
  destruct (SetOperatingMode EDIT c1) as [c2 [u2 | e2]]; simpl; [| auto].
  destruct (GetDeviceConfig c2) as [c3 [dev | e3]]; simpl; [| auto].
  destruct (ActiveApplication dev =? index req); simpl; [auto |].
  destruct (DeleteApplication (index req) c3) as [c4 [u4 | e4]]; simpl; auto.
Qed.
End ResponseFacts.

(** X8.  What the response object holds when a handler is called never shows
    in what [Config] and [Rm] answer, nor in the status [Dump] answers: on
    every path the handlers overwrite these fields, so two calls that meet
    the same node give the same answer and leave the same node, whatever the
    response and the log were before. *)
Theorem responses_are_overwritten :
  forall (Cam DeviceConfig : Type) (H : Camera Cam DeviceConfig)
         (n : O3D3xxNode Cam),
    (forall (req : ConfigRequest) (r r' : ConfigResponse) (l l' : list event),
        res (fst (Config req (mkEnv n r l))) = res (fst (Config req (mkEnv n r' l'))) /\
        self (fst (Config req (mkEnv n r l))) = self (fst (Config req (mkEnv n r' l')))) /\
    (forall (req : RmRequest) (r r' : RmResponse) (l l' : list event),
        res (fst (Rm req (mkEnv n r l))) = res (fst (Rm req (mkEnv n r' l'))) /\
        self (fst (Rm req (mkEnv n r l))) = self (fst (Rm req (mkEnv n r' l')))) /\
    (forall (r r' : DumpResponse) (l l' : list event),
        dump_status (res (fst (Dump tt (mkEnv n r l)))) =
        dump_status (res (fst (Dump tt (mkEnv n r' l')))) /\
        self (fst (Dump tt (mkEnv n r l))) = self (fst (Dump tt (mkEnv n r' l')))).
Proof.
  intros Cam DeviceConfig H n. split; [| split].
  - intros req r r' l l'. rewrite !Config_run. simpl. split; reflexivity.
  - intros req r r' l l'. rewrite !Rm_unfold.
    destruct (Rm_try_same req (at_try (mkEnv n r l)) (at_try (mkEnv n r' l'))
                eq_refl eq_refl) as (Es & Er & Eo).
    destruct (Rm_try req (at_try (mkEnv n r l))) as [s1 o1].
    destruct (Rm_try req (at_try (mkEnv n r' l'))) as [s2 o2].
    simpl in Es, Er, Eo. subst o2. rewrite <- Es, <- Er.
    destruct (CancelSession (cam_ (self s1))) as [c b]. simpl.
    split; reflexivity.
  - intros r r' l l'.
    destruct (ToJSON (cam_ n)) as [c [cfg | [code what | what]]] eqn:E.
    + rewrite (Dump_returns (mkEnv n r l) c cfg E),
              (Dump_returns (mkEnv n r' l') c cfg E). split; reflexivity.
    + rewrite (Dump_error_t (mkEnv n r l) c code what E),
              (Dump_error_t (mkEnv n r' l') c code what E). split; reflexivity.
    + rewrite (Dump_std_exception (mkEnv n r l) c what E),
              (Dump_std_exception (mkEnv n r' l') c what E). split; reflexivity.
Qed.

(** X9.  When [ToJSON] returns, [Dump] returns [true] with status 0 and the
    JSON the camera gave as the config, leaves the camera as [ToJSON] left
    it, and has replaced the frame grabber once. *)
Theorem Dump_returns_camera_configuration :
  forall (Cam DeviceConfig : Type) (H : Camera Cam DeviceConfig)
         (s : env Cam DumpResponse) (c : Cam) (cfg : string),
    ToJSON (cam_ (self s)) = (c, Returns cfg) ->
    snd (Dump tt s) = Returns true /\
    res (fst (Dump tt s)) = mkDumpResponse 0 cfg /\
    cam_ (self (fst (Dump tt s))) = c /\
    fg_ (self (fst (Dump tt s))) = S (fg_ (self s)) /\
    count is_camera_call (log (fst (Dump tt s))) =
      S (count is_camera_call (log s)).
Proof.
  intros Cam DeviceConfig H s c cfg E.
  rewrite (Dump_returns s c cfg E). simpl. repeat split. count_log.
Qed.

(** X9 (witness). *)
Lemma Dump_returns_camera_configuration_witness :
  res (fst (Dump tt (Mock.start default_DumpResponse (Mock.idle []))))
  = mkDumpResponse 0 "{ActiveApplication: 1}".
Proof.
  eapply (Dump_returns_camera_configuration _ _ Mock.camera).
  reflexivity.
Defined.

(** * Further properties of the two threads *)

Section Liveness.
Variables loop svc : list event.
Variable fg0 : FrameGrabber.
Hypothesis loop_ok : loop_shaped loop.
Hypothesis svc_ok : handler_shaped svc.

Lemma quiet_no_lock (l : list event) :
  List.forallb quiet l = true ->
  List.forallb (fun e => negb (is_lock_op e)) l = true.
Proof.
  intros Q. rewrite List.forallb_forall in *. intros e I.
  specialize (Q e I). destruct e; simpl in *; try discriminate; reflexivity.
Qed.

Lemma forallb_firstn (p : event -> bool) (l : list event) (n : nat) :
  List.forallb p l = true -> List.forallb p (firstn n l) = true.
Proof.
  intros Q. rewrite List.forallb_forall in *. intros e I.
  apply Q. apply (In_firstn _ _ _ I).
Qed.

(** The loop holds the mutex only between its lock and its unlock. *)
Lemma loop_holds_at (pc : nat) :
  holds_mutex (firstn pc loop) = true -> pc = 1%nat \/ pc = 2%nat.
Proof.
  destruct loop_ok as (t0 & rest & -> & Q). intros Hh.
  destruct pc as [| [| [| pc]]]; simpl in Hh; auto; try discriminate.
  unfold holds_mutex in Hh. simpl in Hh.
  rewrite fold_held_quiet in Hh; [discriminate |].
  apply forallb_firstn. apply quiet_no_lock. exact Q.
Qed.

Lemma loop_length : (3 <= List.length loop)%nat.
Proof. destruct loop_ok as (t0 & rest & -> & Q). simpl. lia. Qed.

Lemma loop_next (pc : nat) (e : event) :
  nth_error loop pc = Some e ->
  (pc = 0%nat /\ e = EvLock) \/
  (pc = 1%nat /\ is_lock_op e = false) \/
  (pc = 2%nat /\ e = EvUnlock) \/
  ((3 <= pc)%nat /\ is_lock_op e = false).
Proof.
  destruct loop_ok as (t0 & rest & -> & Q). intros N.
  destruct pc as [| [| [| pc]]]; simpl in N.
  - injection N as <-. auto.
  - injection N as <-. auto.
  - injection N as <-. auto 6.
  - right. right. right. split; [lia |].
    apply (forallb_nth _ _ _ _ (quiet_no_lock _ Q)) in N.
    destruct e; simpl in *; try discriminate; reflexivity.
Qed.

Lemma holds_mutex_loop : holds_mutex loop = false.
Proof.
  destruct loop_ok as (t0 & rest & -> & Q).
  unfold holds_mutex. simpl. apply fold_held_quiet, quiet_no_lock, Q.
Qed.

Lemma holds_mutex_svc : holds_mutex svc = false.
Proof.
  destruct svc_ok as (body & -> & Q & _).
  change (EvLock :: body ++ [EvUnlock]) with ((EvLock :: body) ++ [EvUnlock]).
  rewrite holds_mutex_snoc. reflexivity.
Qed.

Lemma count_wait_loop : count is_wait loop = 1%nat.
Proof.
  destruct loop_ok as (t0 & rest & -> & Q).
  unfold count. simpl. f_equal. clear loop_ok.
  induction rest as [| e rest IH]; [reflexivity |].
  simpl in Q. apply andb_prop in Q. destruct Q as [Qe Q].
  specialize (IH Q).
  destruct e; simpl in *; try discriminate; exact IH.
Qed.

Lemma svc_next (pc : nat) (e : event) :
  nth_error svc pc = Some e ->
  (pc = 0%nat /\ e = EvLock) \/ ((1 <= pc)%nat /\ e <> EvLock).
Proof.
  destruct svc_ok as (body & -> & Q & _). intros N.
  destruct pc as [| pc]; simpl in N.
  - injection N as <-. auto.
  - right. split; [lia |].
    destruct (Nat.lt_ge_cases pc (List.length body)) as [L | L].
    + rewrite List.nth_error_app1 in N by exact L.
      apply (forallb_nth _ _ _ _ Q) in N.
      destruct e; simpl in *; try discriminate; congruence.
    + rewrite List.nth_error_app2 in N by exact L.
      destruct (pc - List.length body)%nat as [| [| k]]; simpl in N;
        try discriminate.
      injection N as <-. discriminate.
Qed.

(** A thread whose next operation is not refused by the mutex can move. *)
Lemma exec_enabled (t : tid) (m : machine) (e : event) :
  nth_error (prog_of loop svc t) (pc_of t m) = Some e ->
  (e = EvLock -> fg_mutex_ m = None) ->
  (e = EvUnlock -> fg_mutex_ m = Some t) ->
  exists m', exec loop svc t m = Some m'.
Proof.
  intros N Hl Hu. unfold exec. rewrite N.
  destruct e; try (eexists; reflexivity).
  - rewrite (Hl eq_refl). eexists. reflexivity.
  - rewrite (Hu eq_refl). destruct t; simpl; eexists; reflexivity.
Qed.

Lemma nth_error_lt (l : list event) (n : nat) :
  (n < List.length l)%nat -> exists e, nth_error l n = Some e.
Proof.
  intros L. destruct (nth_error l n) as [e |] eqn:N; [eauto |].
  apply List.nth_error_None in N. lia.
Qed.

(** No deadlock: while a thread has operations left, some thread can move. *)
Lemma progress (m : machine) :
  invariant loop svc fg0 m ->
  within loop svc m ->
  ~ finished loop svc m ->
  exists t m', exec loop svc t m = Some m'.
Proof.
  intros (I1 & I2 & _) (Bl & Bs & _) NF.
  destruct (fg_mutex_ m) as [[|] |] eqn:Mu; simpl in I1, I2.
  - (* the loop holds the mutex *)
    exists LoopThread.
    destruct (loop_holds_at _ I1) as [P | P];
      pose proof loop_length as L3;
      destruct (nth_error_lt loop (loop_pc m) ltac:(lia)) as (e & N);
      apply (exec_enabled LoopThread m e N);
      destruct (loop_next _ _ N) as [(Q & ->) | [(Q & K) | [(Q & ->) | (Q & K)]]];
      try lia; try (intros ->; discriminate); try discriminate; auto.
  - (* the handler holds the mutex *)
    exists ServiceThread.
    assert (Ls : (svc_pc m < List.length svc)%nat).
    { destruct (Nat.lt_ge_cases (svc_pc m) (List.length svc)) as [L | L];
        [exact L |].
      rewrite List.firstn_all2, holds_mutex_svc in I2 by exact L.
      discriminate. }
    destruct (nth_error_lt svc (svc_pc m) Ls) as (e & N).
    apply (exec_enabled ServiceThread m e N).
    + intros ->. destruct (svc_next _ _ N) as [(Q & _) | (_ & Q)].
      * rewrite Q in I2. discriminate.
      * congruence.
    + intros _. exact Mu.
  - (* the mutex is free *)
    destruct (Nat.lt_ge_cases (loop_pc m) (List.length loop)) as [Ll | Ll].
    + exists LoopThread.
      destruct (nth_error_lt loop (loop_pc m) Ll) as (e & N).
      apply (exec_enabled LoopThread m e N); [intros _; exact Mu |].
      intros ->.
      destruct (loop_next _ _ N) as [(Q & K) | [(Q & K) | [(Q & K) | (Q & K)]]];
        try discriminate.
      rewrite Q in I1.
      destruct loop_ok as (t0 & rest & E & _). rewrite E in I1. discriminate.
    + exists ServiceThread.
      assert (Ls : (svc_pc m < List.length svc)%nat).
      { destruct (Nat.lt_ge_cases (svc_pc m) (List.length svc)) as [L | L];
          [exact L |].
        exfalso. apply NF. split; lia. }
      destruct (nth_error_lt svc (svc_pc m) Ls) as (e & N).
      apply (exec_enabled ServiceThread m e N); [intros _; exact Mu |].
      intros ->.
      destruct (svc_outside svc svc_ok _ I2) as [Z0 | Ge]; [| lia].
      destruct (svc_next _ _ N) as [(_ & Q) | (Q & _)]; [discriminate | lia].
Qed.

(** Every operation moves one thread one step forward in its program and
    records a frame exactly when the loop waits. *)
Lemma exec_within (t : tid) (m m' : machine) :
  within loop svc m ->
  exec loop svc t m = Some m' ->
  within loop svc m' /\
  (loop_pc m' + svc_pc m' = S (loop_pc m + svc_pc m))%nat.
Proof.
  intros (Bl & Bs & A) X. unfold exec in X. destruct t; simpl in X.
  - destruct (nth_error loop (loop_pc m)) as [e |] eqn:N; [| discriminate].
    pose proof (firstn_S_nth _ _ _ N) as F.
    assert (L : (loop_pc m < List.length loop)%nat)
      by (apply List.nth_error_Some; congruence).
    unfold within.
    destruct e;
      try (injection X as <-; simpl loop_pc; simpl svc_pc; simpl acquired;
           rewrite F, count_snoc; simpl; repeat split; lia).
    + destruct (fg_mutex_ m); [discriminate |].
      injection X as <-. simpl loop_pc; simpl svc_pc; simpl acquired.
      rewrite F, count_snoc. simpl. repeat split; lia.
    + destruct (fg_mutex_ m) as [[|] |]; try discriminate.
      injection X as <-. simpl loop_pc; simpl svc_pc; simpl acquired.
      rewrite F, count_snoc. simpl. repeat split; lia.
    + injection X as <-. simpl loop_pc; simpl svc_pc; simpl acquired.
      rewrite F, count_snoc, List.length_app. simpl. repeat split; lia.
  - destruct (nth_error svc (svc_pc m)) as [e |] eqn:N; [| discriminate].
    pose proof (svc_waits_not svc svc_ok _ _ N) as W.
    assert (L : (svc_pc m < List.length svc)%nat)
      by (apply List.nth_error_Some; congruence).
    unfold within.
    destruct e; simpl in W; try discriminate;
      try (injection X as <-; simpl loop_pc; simpl svc_pc; simpl acquired;
           repeat split; lia).
    + destruct (fg_mutex_ m); [discriminate |].
      injection X as <-. simpl loop_pc; simpl svc_pc; simpl acquired.
      repeat split; lia.
    + destruct (fg_mutex_ m) as [[|] |]; try discriminate.
      injection X as <-. simpl loop_pc; simpl svc_pc; simpl acquired.
      repeat split; lia.
Qed.

Lemma boot_within : within loop svc (boot fg0).
Proof. unfold within, boot. simpl. repeat split; lia. Qed.

Lemma run_schedule_within (sched : list tid) (m m' : machine) :
  within loop svc m ->
  run_schedule loop svc sched m = Some m' ->
  within loop svc m' /\
  (loop_pc m' + svc_pc m' = loop_pc m + svc_pc m + List.length sched)%nat.
Proof.
  revert m. induction sched as [| t sched IH]; intros m B R; simpl in R.
  - injection R as <-. split; [exact B | simpl; lia].
  - destruct (exec loop svc t m) as [m1 |] eqn:X; [| discriminate].
    destruct (exec_within t m m1 B X) as (B1 & S1).
    destruct (IH m1 B1 R) as (B' & S'). split; [exact B' | simpl; lia].
Qed.

Lemma run_schedule_app (s1 s2 : list tid) (m : machine) :
  run_schedule loop svc (s1 ++ s2) m =
    match run_schedule loop svc s1 m with
    | Some m1 => run_schedule loop svc s2 m1
    | None => None
    end.
Proof.
  revert m. induction s1 as [| t s1 IH]; intros m; simpl; [reflexivity |].
  destruct (exec loop svc t m); [apply IH | reflexivity].
Qed.

(** From every state the threads can reach, both can be run to their end. *)
Lemma can_complete (k : nat) (m : machine) :
  invariant loop svc fg0 m ->
  within loop svc m ->
  (List.length loop + List.length svc - (loop_pc m + svc_pc m) = k)%nat ->
  exists rest m',
    run_schedule loop svc rest m = Some m' /\ finished loop svc m'.
Proof.
  revert m. induction k as [| k IH]; intros m I B K.
  - exists [], m. split; [reflexivity |].
    destruct B as (Bl & Bs & _). split; lia.
  - destruct (progress m I B) as (t & m1 & X).
    { intros (Fl & Fs). lia. }
    destruct (exec_within t m m1 B X) as (B1 & S1).
    pose proof (exec_invariant loop svc fg0 loop_ok svc_ok t m m1 I X) as I1.
    destruct (IH m1 I1 B1 ltac:(lia)) as (rest & m' & R & F).
    exists (t :: rest), m'. simpl. rewrite X. auto.
Qed.

(** What the machine looks like when both threads are through. *)
Lemma finished_state (m : machine) :
  invariant loop svc fg0 m ->
  within loop svc m ->
  finished loop svc m ->
  fg_mutex_ m = None /\
  slot m = (fg0 + count is_fg_reset svc)%nat /\
  constructing m = false /\
  List.length (acquired m) = 1%nat.
Proof.
  intros (I1 & I2 & I3 & I4 & _) (_ & _ & A) (Fl & Fs).
  rewrite Fl, List.firstn_all in I1, A.
  rewrite Fs, List.firstn_all in I2, I3, I4.
  rewrite holds_mutex_loop in I1. rewrite holds_mutex_svc in I2.
  rewrite count_wait_loop in A.
  destruct svc_ok as (_ & _ & _ & Hb).
  repeat split; try assumption; try congruence.
  destruct (fg_mutex_ m) as [[|] |]; simpl in *; congruence.
Qed.
End Liveness.

(** X10.  The loop and a handler never deadlock on the mutex.  Take any
    administrative operation, any camera, any pass through the loop body and
    any schedule the mutex admits, however far it got.  The schedule is no
    longer than the two programs together, and it can always be continued
    until both threads are through.  Then the mutex is free, no grabber is
    half installed, the slot holds the frame grabber the handler leaves in
    the node, and the loop has taken exactly one frame, from a settled
    connection. *)
Theorem loop_and_handler_never_deadlock :
  forall (Cam DeviceConfig : Type) (H : Camera Cam DeviceConfig)
         (op : admin_op) (n : O3D3xxNode Cam)
         (WaitForFrame : nat -> FrameGrabber -> Z -> bool) (i : nat)
         (sched : list tid) (m : machine),
    let loop := loop_program WaitForFrame i n in
    let svc := handler_program op n in
    run_schedule loop svc sched (boot (fg_ n)) = Some m ->
    (List.length sched <= List.length loop + List.length svc)%nat /\
    exists rest m',
      run_schedule loop svc (sched ++ rest) (boot (fg_ n)) = Some m' /\
      finished loop svc m' /\
      fg_mutex_ m' = None /\
      constructing m' = false /\
      slot m' = fg_ (handler_node op n) /\
      List.length (acquired m') = 1%nat /\
      List.Forall (settled (fg_ n) svc) (acquired m').
Proof.
  intros Cam DeviceConfig H op n W i sched m loop svc R.
  pose proof (loop_program_shaped W i n) as Lok.
  pose proof (handler_program_shaped op n) as Sok.
  fold loop in Lok. fold svc in Sok.
  pose proof (run_schedule_invariant loop svc (fg_ n) Lok Sok sched _ m
                (boot_invariant loop svc (fg_ n)) R) as I.
  destruct (run_schedule_within loop svc Sok sched _ m
              (boot_within loop svc (fg_ n)) R) as (B & S0).
  simpl in S0. split.
  - destruct B as (Bl & Bs & _). lia.
  - destruct (can_complete loop svc (fg_ n) Lok Sok _ m I B eq_refl)
      as (rest & m' & R' & F).
    exists rest, m'.
    pose proof (run_schedule_invariant loop svc (fg_ n) Lok Sok rest m m' I R')
      as I'.
    destruct (run_schedule_within loop svc Sok rest m m' B R') as (B' & _).
    destruct (finished_state loop svc (fg_ n) Lok Sok m' I' B' F)
      as (Mu & Sl & Cn & Ac).
    destruct (handler_step op n) as (_ & G & C & _).
    repeat split; try assumption.
    + rewrite run_schedule_app, R. exact R'.
    + apply F.
    + apply F.
    + rewrite Sl, G. unfold svc. rewrite C. reflexivity.
    + destruct I' as (_ & _ & _ & _ & I5). exact I5.
Qed.

(** X10 (witness): [Rm] has taken the mutex and requested its session while
    the loop is blocked at its lock; both can still be run to their end. *)
Lemma loop_and_handler_never_deadlock_witness :
  let n := Mock.node (Mock.idle []) in
  let loop := loop_program (fun _ _ _ => true) 0 n in
  let svc := handler_program (OpRm {| index := 2 |}) n in
  exists rest m',
    run_schedule loop svc ([ServiceThread; ServiceThread] ++ rest) (boot 0%nat)
    = Some m' /\
    slot m' = 1%nat /\
    List.length (acquired m') = 1%nat.
Proof.
  cbv zeta.
  destruct (proj2 (loop_and_handler_never_deadlock _ _ Mock.camera
                     (OpRm {| index := 2 |}) (Mock.node (Mock.idle []))
                     (fun _ _ _ => true) 0 [ServiceThread; ServiceThread]
                     _ ltac:(vm_compute; reflexivity)))
    as (rest & m' & R & _ & _ & _ & Sl & Ac & _).
  exists rest, m'. repeat split; assumption.
Defined.

(** X11.  On every path [Config] makes exactly one call on the camera:
    [FromJSON] on the document of the request, passed on as it came.  It
    opens no session and deletes nothing itself, and leaves the camera as
    [FromJSON] left it, whether [FromJSON] returned or threw. *)
Theorem Config_applies_document_once :
  forall (Cam DeviceConfig : Type) (H : Camera Cam DeviceConfig)
         (req : ConfigRequest) (s : env Cam ConfigResponse),
    log (fst (Config req s)) =
      log s ++ [EvLock; EvFromJSON (json req); EvNewFrameGrabber; EvFgReset;
                EvUnlock] /\
    count is_camera_call (log (fst (Config req s))) =
      S (count is_camera_call (log s)) /\
    cam_ (self (fst (Config req s))) = fst (FromJSON (json req) (cam_ (self s))).
Proof.
  intros Cam DeviceConfig H req s. rewrite Config_run. simpl.
  repeat split. count_log.
Qed.

Section LifeFacts.
Context {Cam DeviceConfig : Type} `{Camera Cam DeviceConfig}.

(** No handler waits for a frame or publishes. *)
Lemma handler_program_silent (op : admin_op) (n : O3D3xxNode Cam) :
  List.forallb (fun e => negb (is_wait e || is_publish e))
               (handler_program op n) = true.
Proof.
  destruct op as [| req | req]; unfold handler_program.
  - destruct (ToJSON (cam_ n)) as [c [cfg | [code what | what]]] eqn:E.
    + rewrite (Dump_returns (mkEnv n default_DumpResponse []) c cfg E).
      reflexivity.
    + rewrite (Dump_error_t (mkEnv n default_DumpResponse []) c code what E).
      reflexivity.
    + rewrite (Dump_std_exception (mkEnv n default_DumpResponse []) c what E).
      reflexivity.
  - rewrite Config_run. reflexivity.
  - rewrite Rm_unfold.
    destruct (Rm_try_log req (at_try (mkEnv n default_StatusMsg [])))
      as (pre & L & _ & G & _).
    destruct (Rm_try req (at_try (mkEnv n default_StatusMsg []))) as [s1 r].
    simpl in L.
    destruct (CancelSession (cam_ (self s1))) as [c b]. simpl. rewrite L.
    simpl. rewrite List.forallb_app. simpl. rewrite Bool.andb_true_r.
    rewrite List.forallb_forall in *. intros e I. specialize (G e I).
    destruct e; simpl in *; try discriminate; reflexivity.
Qed.

Lemma loop_program_log (WaitForFrame : nat -> FrameGrabber -> Z -> bool)
    (i : nat) (n : O3D3xxNode Cam) :
  loop_program WaitForFrame i n =
    pass_log (publish_viz_images_ n) (frame_id_ n) (timeout_millis_ n)
             (WaitForFrame i (fg_ n) (timeout_millis_ n)).
Proof. unfold loop_program. rewrite Run_iteration_log. reflexivity. Qed.

(** Through passes and requests in any order, the waits carry the node's
    timeout and the messages its frame id, neither of which ever changes. *)
Lemma node_life_facts (WaitForFrame : nat -> FrameGrabber -> Z -> bool)
    (acts : list activity) (n : O3D3xxNode Cam) :
  timeout_millis_ (fst (node_life WaitForFrame acts n)) = timeout_millis_ n /\
  frame_id_ (fst (node_life WaitForFrame acts n)) = frame_id_ n /\
  List.Forall (fun e => forall t, e = EvWaitForFrame t -> t = timeout_millis_ n)
              (snd (node_life WaitForFrame acts n)) /\
  List.Forall (fun e => forall topic fid,
                 e = EvPublish topic fid -> fid = frame_id_ n)
              (snd (node_life WaitForFrame acts n)).
Proof.
  revert n. induction acts as [| [i | op] acts IH]; intros n; simpl.
  - repeat split; constructor.
  - specialize (IH n).
    destruct (node_life WaitForFrame acts n) as [n' l]. simpl in *.
    destruct IH as (T & F & Wt & Pb). repeat split; try assumption.
    + apply List.Forall_app. split; [| exact Wt].
      rewrite loop_program_log.
      pose proof (waits_carry_timeout (publish_viz_images_ n) (frame_id_ n)
                    (timeout_millis_ n)
                    (fun j => WaitForFrame j (fg_ n) (timeout_millis_ n)) [i])
        as W1.
      simpl in W1. rewrite List.app_nil_r in W1. exact W1.
    + apply List.Forall_app. split; [| exact Pb].
      rewrite loop_program_log.
      pose proof (publishes_carry_frame_id (publish_viz_images_ n) (frame_id_ n)
                    (timeout_millis_ n)
                    (fun j => WaitForFrame j (fg_ n) (timeout_millis_ n)) [i])
        as P1.
      simpl in P1. rewrite List.app_nil_r in P1. exact P1.
  - specialize (IH (handler_node op n)).
    destruct (node_life WaitForFrame acts (handler_node op n)) as [n' l].
    simpl in *.
    destruct IH as (T & F & Wt & Pb).
    destruct (handler_step op n) as (_ & _ & _ & T1 & _ & F1 & _).
    rewrite T1 in T, Wt. rewrite F1 in F, Pb.
    pose proof (handler_program_silent op n) as Q.
    rewrite List.forallb_forall in Q.
    repeat split; try assumption.
    + apply List.Forall_app. split; [| exact Wt].
      apply List.Forall_forall. intros e I t ->.
      specialize (Q _ I). discriminate.
    + apply List.Forall_app. split; [| exact Pb].
      apply List.Forall_forall. intros e I topic fid ->.
      specialize (Q _ I). discriminate.
Qed.
End LifeFacts.

(** X4.  A node built by the constructor, through passes of the loop and
    served Dump, Config and Rm requests in any number and order, waits for
    every frame with the timeout the parameter server holds under
    "timeout_millis", 500 when it holds none, and stamps every message it
    publishes with the node name followed by "_link". *)
Theorem configured_timeout_and_frame_id_are_used :
  forall (Cam DeviceConfig : Type) (H : Camera Cam DeviceConfig)
         (new_Camera : string -> Z -> string -> Cam)
         (DEFAULT_IP : string) (DEFAULT_XMLRPC_PORT : Z) (DEFAULT_PASSWORD : string)
         (ps : ParamServer) (node_name : string)
         (WaitForFrame : nat -> FrameGrabber -> Z -> bool)
         (acts : list activity),
  let n0 := O3D3xxNode_new new_Camera DEFAULT_IP DEFAULT_XMLRPC_PORT
              DEFAULT_PASSWORD ps node_name in
  List.Forall (fun e => forall t,
                 e = EvWaitForFrame t ->
                 t = param (param_int ps "timeout_millis") 500)
              (snd (node_life WaitForFrame acts n0)) /\
  List.Forall (fun e => forall topic fid,
                 e = EvPublish topic fid -> fid = (node_name ++ "_link")%string)
              (snd (node_life WaitForFrame acts n0)) /\
  timeout_millis_ (fst (node_life WaitForFrame acts n0)) =
    param (param_int ps "timeout_millis") 500 /\
  frame_id_ (fst (node_life WaitForFrame acts n0)) = (node_name ++ "_link")%string.
Proof.
  intros Cam DeviceConfig H new_Camera ip port pw ps name W acts n0.
  destruct (node_life_facts W acts n0) as (T & F & Wt & Pb).
  repeat split; assumption.
Qed.
